(** * rpi-burner: a shallow embedding of the disk-imaging core

    The development follows the Python package [rpi_burner]:
    - [disk_writer.py]   : [get_raw_device], [burn_image]
    - [disk_detector.py] : [list_external_disks], [get_disk_info]
    - [cloud_init.py]    : [get_boot_partition], [load_cloud_config]

    Python exceptions are results of an error monad, calls of
    [subprocess.run] are recorded in a trace of the commands started, and the
    values that [plistlib.loads] builds are an inductive type [pyval] with
    Python's truthiness, [dict.get] and iteration written out. *)

From Stdlib Require Import String Ascii List ZArith Bool Lia.
From Stdlib Require Import DecimalString SpecFloat.
Import ListNotations.
Local Open Scope string_scope.
Local Open Scope list_scope.

(** ** Python strings *)

Module PyStr.

(** [s.startswith(p)] *)
Definition startswith (p s : string) : bool := String.prefix p s.

(** The scan of [str.replace old new] for a non-empty [old]: left to right,
    occurrences do not overlap.  [skip] counts the characters of the
    occurrence just replaced that are still to be passed over. *)
Fixpoint replace_from (old new : string) (skip : nat) (s : string) : string :=
  match s with
  | EmptyString => EmptyString
  | String c rest =>
      match skip with
      | S k => replace_from old new k rest
      | O =>
          if String.prefix old s
          then (new ++ replace_from old new (String.length old - 1) rest)%string
          else String c (replace_from old new 0 rest)
      end
  end.

(** With an empty [old], Python puts [new] before every character and at
    the end. *)
Fixpoint interleave (new s : string) : string :=
  match s with
  | EmptyString => new
  | String c rest => (new ++ String c (interleave new rest))%string
  end.

(** [s.replace(old, new)] *)
Definition replace (old new s : string) : string :=
  match old with
  | EmptyString => interleave new s
  | String _ _ => replace_from old new 0 s
  end.

(** [old in s] *)
Fixpoint contains (old s : string) : bool :=
  String.prefix old s
  || match s with
     | EmptyString => false
     | String _ rest => contains old rest
     end.

(** [s.split(sep)] for a one-character separator. *)
Fixpoint split_on (sep : ascii) (s : string) : list string :=
  match s with
  | EmptyString => [EmptyString]
  | String c rest =>
      if Ascii.eqb c sep then EmptyString :: split_on sep rest
      else match split_on sep rest with
           | [] => [String c EmptyString]
           | w :: ws => String c w :: ws
           end
  end.

(** [str(n)] for an integer. *)
Definition of_Z (z : Z) : string := NilZero.string_of_int (Z.to_int z).

End PyStr.

(** ** Exceptions and the error monad *)

(** Exceptions raised by the Python library. *)
Inductive lib_exn : Type :=
| CalledProcessError (cmd : list string) (returncode : Z)
| InvalidPlist                       (* plistlib.loads on malformed input *)
| AttributeError                     (* [.get] on a value that is no dict *)
| TypeError                          (* iteration or Path() on a wrong type *)
| OtherOSError (path : string)
| YAMLError (diagnostic : string).

(** An f-string message: its literal text and, for [{e}], the exception
    interpolated at its end. *)
Record message : Type := Message {
  msg_text : string;
  msg_exn : option lib_exn
}.

Inductive exn : Type :=
| Lib (e : lib_exn)
| DiskDetectorError (m : message)
| DiskWriterError (m : message)
| CloudInitError (m : message).

Inductive result (A : Type) : Type :=
| Ok (a : A)
| Raise (e : exn).
Arguments Ok {A} a.
Arguments Raise {A} e.

(** ** Processes *)

(** What [subprocess.run] reports of a finished command. *)
Record completed : Type := Completed {
  returncode : Z;
  stdout : string
}.

Definition command : Type := list string.

(** A computation that starts commands: the trace holds the commands started
    so far, oldest first. *)
Definition M (A : Type) : Type := list command -> list command * result A.

Definition ret {A} (a : A) : M A := fun t => (t, Ok a).

Definition raise {A} (e : exn) : M A := fun t => (t, Raise e).

Definition bind {A B} (m : M A) (k : A -> M B) : M B :=
  fun t =>
    match m t with
    | (t', Ok a) => k a t'
    | (t', Raise e) => (t', Raise e)
    end.

(** [try: m  except ...: h e]; [h] returns [None] for an exception its
    clauses do not name. *)
Definition try_except {A} (m : M A) (h : exn -> option (M A)) : M A :=
  fun t =>
    match m t with
    | (t', Ok a) => (t', Ok a)
    | (t', Raise e) =>
        match h e with
        | Some k => k t'
        | None => (t', Raise e)
        end
    end.

Definition lift {A} (r : result A) : M A := fun t => (t, r).

Declare Scope py_scope.
Delimit Scope py_scope with py.
Notation "x <- m ;; k" := (bind m (fun x => k))
  (at level 61, m at next level, right associativity) : py_scope.
Notation "m ;;; k" := (bind m (fun _ => k))
  (at level 61, right associativity) : py_scope.

(** The error monad alone, for code that starts no command. *)
Definition rbind {A B} (r : result A) (k : A -> result B) : result B :=
  match r with
  | Ok a => k a
  | Raise e => Raise e
  end.

Notation "x <-r m ;; k" := (rbind m (fun x => k))
  (at level 61, m at next level, right associativity) : py_scope.

Local Open Scope py_scope.

(** ** Python values *)

(** The values [plistlib.loads] builds (dict, list, str, int, float, bool,
    bytes, datetime), and [None], which [dict.get] returns for a missing key
    when no default is given.  A plist dict has string keys; it is kept as an
    association list in document order and looked up by its first binding. *)
#[local] Unset Elimination Schemes.
Inductive pyval : Type :=
| VNone
| VBool (b : bool)
| VInt (z : Z)
| VReal (r : SpecFloat.spec_float)
| VStr (s : string)
| VData (bytes : list Byte.byte)
| VDate (timestamp : Z)
| VList (items : list pyval)
| VDict (bindings : list (string * pyval)).
#[local] Set Elimination Schemes.

Module Py.

(** [bool(v)] *)
Definition truthy (v : pyval) : bool :=
  match v with
  | VNone => false
  | VBool b => b
  | VInt z => negb (Z.eqb z 0)
  | VReal (SpecFloat.S754_zero _) => false
  | VReal _ => true
  | VStr s => negb (String.eqb s "")
  | VData bytes => match bytes with [] => false | _ :: _ => true end
  | VDate _ => true
  | VList items => match items with [] => false | _ :: _ => true end
  | VDict bindings => match bindings with [] => false | _ :: _ => true end
  end.

(** [a or b] *)
Definition or_else (a b : pyval) : pyval := if truthy a then a else b.

Fixpoint assoc (k : string) (bindings : list (string * pyval))
  : option pyval :=
  match bindings with
  | [] => None
  | (k', v) :: rest => if String.eqb k k' then Some v else assoc k rest
  end.

(** [v.get(k, default)]; only a dict has the method. *)
Definition get (v : pyval) (k : string) (default : pyval) : result pyval :=
  match v with
  | VDict bindings =>
      Ok (match assoc k bindings with Some x => x | None => default end)
  | _ => Raise (Lib AttributeError)
  end.

Fixpoint chars (s : string) : list pyval :=
  match s with
  | EmptyString => []
  | String c rest => VStr (String c EmptyString) :: chars rest
  end.

(** The items [for x in v] runs through: the elements of a list, the keys
    of a dict, the characters of a str, the bytes of a bytes object. *)
Definition iter (v : pyval) : result (list pyval) :=
  match v with
  | VList items => Ok items
  | VDict bindings => Ok (map (fun kv => VStr (fst kv)) bindings)
  | VStr s => Ok (chars s)
  | VData bytes => Ok (map (fun b => VInt (Z.of_N (Byte.to_N b))) bytes)
  | _ => Raise (Lib TypeError)
  end.

(** [v in (s1, ..., sn)] for a tuple of str: equal to one of them. *)
Definition in_strs (v : pyval) (l : list string) : bool :=
  match v with
  | VStr s => existsb (String.eqb s) l
  | _ => false
  end.

(** [PurePosixPath(s).name]: the last component of [s], where empty
    components and ["."] are dropped; empty when there is none. *)
Definition path_name (s : string) : string :=
  last (filter (fun c => negb (String.eqb c "") && negb (String.eqb c "."))
               (PyStr.split_on "/"%char s))
       "".

(** [Path(v).name]; [Path] accepts a str only. *)
Definition Path_name (v : pyval) : result pyval :=
  match v with
  | VStr s => Ok (VStr (path_name s))
  | _ => Raise (Lib TypeError)
  end.

End Py.

(** ** models.py *)

(** The dataclass checks no field type: what [dict.get] returned is stored as
    it is. *)
Record Disk : Type := mkDisk {
  device_path : string;
  volume_name : pyval;
  size_bytes : pyval;
  file_system : pyval;
  is_removable : pyval;
  is_ejectable : pyval
}.

(** ** The host *)

(** What [open(path)] gives. *)
Inductive opened : Type :=
| NoSuchFile
| OpenFailed
| Text (contents : string).

(** The Python values [yaml.safe_load] builds; [YOther] stands for those of
    the remaining types (float, bytes, date, set, tuple), named by type. *)
#[local] Unset Elimination Schemes.
Inductive yaml : Type :=
| YNone
| YBool (b : bool)
| YInt (z : Z)
| YStr (s : string)
| YList (items : list yaml)
| YDict (bindings : list (yaml * yaml))
| YOther (python_type : string).
#[local] Set Elimination Schemes.

(** [isinstance(config, dict)] *)
Definition isinstance_dict (config : yaml) : bool :=
  match config with
  | YDict _ => true
  | _ => false
  end.

Section Host.

(** What a command does when started. *)
Variable os : command -> completed.
(** [Path(p).exists()] and [open(p)]. *)
Variable path_exists : string -> bool.
Variable open_file : string -> opened.
(** [plistlib.loads]: [None] when it raises on malformed input. *)
Variable plist_loads : string -> option pyval.
(** [str(v)] for the values whose rendering is not written out below. *)
Variable py_repr : pyval -> string.
(** [yaml.safe_load], with the parser's diagnostic when it raises, and
    [yaml.dump(_, default_flow_style=False)]. *)
Variable yaml_safe_load : string -> string + yaml.
Variable yaml_dump : yaml -> string.

(** [subprocess.run(cmd, check=True)] *)
Definition subprocess_run_check (cmd : command) : M completed :=
  fun t =>
    let r := os cmd in
    (t ++ [cmd],
     if Z.eqb (returncode r) 0 then Ok r
     else Raise (Lib (CalledProcessError cmd (returncode r)))).

(** [plistlib.loads(result.stdout.encode())] *)
Definition loads (r : completed) : result pyval :=
  match plist_loads (stdout r) with
  | Some v => Ok v
  | None => Raise (Lib InvalidPlist)
  end.

(** [f"{v}"] *)
Definition format (v : pyval) : string :=
  match v with
  | VStr s => s
  | VNone => "None"
  | VBool true => "True"
  | VBool false => "False"
  | VInt z => PyStr.of_Z z
  | _ => py_repr v
  end.

(** *** disk_writer.py *)

Definition get_raw_device (device_path : string) : string :=
  if PyStr.startswith "/dev/r" device_path then device_path
  else PyStr.replace "/dev/disk" "/dev/rdisk" device_path.

Definition dd_command (image_path raw_device : string) (progress : bool)
  : command :=
  let bs := "1m" in
  let cmd := ["dd"; ("if=" ++ image_path)%string;
              ("of=" ++ raw_device)%string; ("bs=" ++ bs)%string] in
  if progress then cmd ++ ["status=progress"] else cmd.

Definition burn_image (image_path device_path : string) (progress : bool)
  : M unit :=
  if negb (path_exists image_path) then
    raise (DiskWriterError
             (Message ("Image file not found: " ++ image_path)%string None))
  else
    let raw_device := get_raw_device device_path in
    let cmd := dd_command image_path raw_device progress in
    try_except
      (subprocess_run_check cmd ;;; ret tt)
      (fun e =>
         match e with
         | Lib (CalledProcessError c rc) =>
             Some (raise (DiskWriterError
                            (Message "Failed to write image: "
                                     (Some (CalledProcessError c rc)))))
         | _ => None
         end).

(** *** disk_detector.py *)

(** The loop over the partitions of one entry; [volume_name] and
    [mount_point] are the loop's two variables. *)
Fixpoint scan_partitions (partitions : list pyval)
         (volume_name mount_point : pyval) : result (pyval * pyval) :=
  match partitions with
  | [] => Ok (volume_name, mount_point)
  | partition :: rest =>
      vol_name <-r Py.get partition "VolumeName" (VStr "") ;;
      let volume_name :=
        if Py.truthy vol_name then vol_name else volume_name in
      part_mount <-r Py.get partition "MountPoint" (VStr "") ;;
      let mount_point :=
        if Py.truthy part_mount then part_mount else mount_point in
      scan_partitions rest volume_name mount_point
  end.

(** The body of the loop over the entries: [None] when the body reaches
    [continue] or does not append, the disk appended otherwise. *)
Definition disk_of_entry (disk_info : pyval) : result (option Disk) :=
  disk_entry <-r Py.get disk_info "Disk" (VDict []) ;;
  let disk_entry :=
    if negb (Py.truthy disk_entry) then disk_info else disk_entry in
  device_identifier <-r Py.get disk_entry "DeviceIdentifier" (VStr "") ;;
  if negb (Py.truthy device_identifier) then Ok None
  else
    let device_path := ("/dev/" ++ format device_identifier)%string in
    content <-r Py.get disk_entry "Content" (VStr "") ;;
    size <-r Py.get disk_entry "Size" (VInt 0) ;;
    removable <-r Py.get disk_entry "Removable" (VBool false) ;;
    ejectable <-r Py.get disk_entry "Ejectable" (VBool false) ;;
    partitions <-r Py.get disk_info "Partitions" (VList []) ;;
    items <-r Py.iter partitions ;;
    scanned <-r scan_partitions items (VStr "") (VStr "") ;;
    let '(volume_name, mount_point) := scanned in
    volume_name <-r
      (if negb (Py.truthy volume_name) && Py.truthy mount_point
       then Py.Path_name mount_point
       else Ok volume_name) ;;
    let file_system := if Py.truthy content then content else VStr "Unknown" in
    if Py.truthy removable || Py.truthy ejectable
       || Py.truthy mount_point || Py.truthy partitions
    then Ok (Some (mkDisk device_path volume_name size file_system
                          removable ejectable))
    else Ok None.

(** The loop over the entries, [disks] being the list built so far. *)
Fixpoint collect_disks (entries : list pyval) (disks : list Disk)
  : result (list Disk) :=
  match entries with
  | [] => Ok disks
  | disk_info :: rest =>
      appended <-r disk_of_entry disk_info ;;
      collect_disks rest
        (match appended with
         | Some d => disks ++ [d]
         | None => disks
         end)
  end.

Definition list_command : command :=
  ["diskutil"; "list"; "-plist"; "external"; "physical"].

Definition list_external_disks : M (list Disk) :=
  result <- subprocess_run_check list_command ;;
  lift (plist_data <-r loads result ;;
        all_disks_and_partitions <-r
          Py.get plist_data "AllDisksAndPartitions" (VList []) ;;
        entries <-r Py.iter all_disks_and_partitions ;;
        collect_disks entries []).

Definition info_command (device_path : string) : command :=
  ["diskutil"; "info"; "-plist"; device_path].

Definition get_disk_info (device_path : string) : M Disk :=
  result <- subprocess_run_check (info_command device_path) ;;
  lift (plist_data <-r loads result ;;
        device_identifier <-r Py.get plist_data "DeviceIdentifier" (VStr "") ;;
        volume_name <-r Py.get plist_data "VolumeName" (VStr "") ;;
        let volume_name := Py.or_else volume_name (VStr "Untitled") in
        size <-r Py.get plist_data "Size" (VInt 0) ;;
        content <-r Py.get plist_data "Content" (VStr "") ;;
        removable <-r Py.get plist_data "Removable" (VBool false) ;;
        ejectable <-r Py.get plist_data "Ejectable" (VBool false) ;;
        Ok (mkDisk ("/dev/" ++ format device_identifier)%string
                   volume_name size
                   (Py.or_else content (VStr "Unknown"))
                   removable ejectable)).

(** *** cloud_init.py *)

Definition fat_tags : list string :=
  ["DOS"; "FAT32"; "msdos"; "Windows_FAT_32"].

(** The inner loop of [get_boot_partition]: [Some p] when it returns [p],
    [None] when it runs to its end. *)
Fixpoint boot_in_partitions (partitions : list pyval)
  : result (option string) :=
  match partitions with
  | [] => Ok None
  | partition :: rest =>
      content <-r Py.get partition "Content" (VStr "") ;;
      if Py.in_strs content fat_tags then
        device_identifier <-r Py.get partition "DeviceIdentifier" VNone ;;
        Ok (Some ("/dev/" ++ format device_identifier)%string)
      else boot_in_partitions rest
  end.

(** The outer loop. *)
Fixpoint boot_in_disks (all_disks : list pyval) : result (option string) :=
  match all_disks with
  | [] => Ok None
  | disk_info :: rest =>
      partitions <-r Py.get disk_info "Partitions" (VList []) ;;
      items <-r Py.iter partitions ;;
      found <-r boot_in_partitions items ;;
      match found with
      | Some p => Ok (Some p)
      | None => boot_in_disks rest
      end
  end.

Definition partition_command (device_path : string) : command :=
  ["diskutil"; "list"; "-plist"; device_path].

(** The first [try] statement: [Some result] after it, [None] when its
    [except] clause returns [None] from the function. *)
Definition query_partitions (device_path : string) : M (option completed) :=
  try_except
    (result <- subprocess_run_check (partition_command device_path) ;;
     ret (Some result))
    (fun e =>
       match e with
       | Lib (CalledProcessError _ _) => Some (ret None)
       | _ => None
       end).

Definition get_boot_partition (device_path : string) : M (option string) :=
  queried <- query_partitions device_path ;;
  match queried with
  | None => ret None
  | Some result =>
      lift (plist_data <-r loads result ;;
            all_disks <-r
              Py.get plist_data "AllDisksAndPartitions" (VList []) ;;
            entries <-r Py.iter all_disks ;;
            boot_in_disks entries)
  end.

(** The [try] statement of [load_cloud_config]. *)
Definition read_config (config_path : string) : result yaml :=
  match open_file config_path with
  | NoSuchFile =>
      Raise (CloudInitError
               (Message ("Config file not found: " ++ config_path)%string
                        None))
  | OpenFailed => Raise (Lib (OtherOSError config_path))
  | Text contents =>
      match yaml_safe_load contents with
      | inl diagnostic =>
          Raise (CloudInitError
                   (Message "Invalid YAML: " (Some (YAMLError diagnostic))))
      | inr config => Ok config
      end
  end.

Definition load_cloud_config (config_path : string) : result string :=
  config <-r read_config config_path ;;
  if negb (isinstance_dict config) then
    Raise (CloudInitError
             (Message "Cloud config must be a YAML dictionary" None))
  else Ok (yaml_dump config).

End Host.

(** ** Reading a response

    The words of the specification, over the parsed response of the device
    listing.  These definitions do not follow the code; the theorems below
    relate them to it. *)

Module Response.

Definition is_dict (v : pyval) : bool :=
  match v with
  | VDict _ => true
  | _ => false
  end.

(** The value of field [k] of an entry, [default] when the entry does not
    report it. *)
Definition field (v : pyval) (k : string) (default : pyval) : pyval :=
  match v with
  | VDict bindings =>
      match Py.assoc k bindings with
      | Some x => x
      | None => default
      end
  | _ => default
  end.

(** The entries of a listing. *)
Definition entries_of (doc : pyval) : list pyval :=
  match field doc "AllDisksAndPartitions" (VList []) with
  | VList entries => entries
  | _ => []
  end.

(** The dict that carries the disk's own fields: the entry's ["Disk"]
    field when it has one, the entry otherwise. *)
Definition disk_fields (entry : pyval) : pyval :=
  let d := field entry "Disk" (VDict []) in
  if Py.truthy d then d else entry.

Definition identifier (entry : pyval) : pyval :=
  field (disk_fields entry) "DeviceIdentifier" (VStr "").

(** The entry has a resolvable device identifier. *)
Definition resolvable (entry : pyval) : bool := Py.truthy (identifier entry).

Definition partitions_of (entry : pyval) : list pyval :=
  match field entry "Partitions" (VList []) with
  | VList partitions => partitions
  | _ => []
  end.

Definition label_of (partition : pyval) : pyval :=
  field partition "VolumeName" (VStr "").

Definition mount_of (partition : pyval) : pyval :=
  field partition "MountPoint" (VStr "").

Definition marked_removable (entry : pyval) : bool :=
  Py.truthy (field (disk_fields entry) "Removable" (VBool false)).

Definition marked_ejectable (entry : pyval) : bool :=
  Py.truthy (field (disk_fields entry) "Ejectable" (VBool false)).

Definition has_mounted_partition (entry : pyval) : bool :=
  existsb (fun p => Py.truthy (mount_of p)) (partitions_of entry).

Definition has_partition (entry : pyval) : bool :=
  match partitions_of entry with
  | [] => false
  | _ :: _ => true
  end.

(** The inclusion rule. *)
Definition included (entry : pyval) : bool :=
  marked_removable entry || marked_ejectable entry
  || has_mounted_partition entry || has_partition entry.

(** The entries of a listing that are listed as disks, in order. *)
Definition listed (entries : list pyval) : list pyval :=
  filter (fun e => resolvable e && included e) entries.

(** The first and the last non-empty value of a list. *)
Definition first_truthy (l : list pyval) : option pyval := find Py.truthy l.

Fixpoint last_truthy (l : list pyval) : option pyval :=
  match l with
  | [] => None
  | x :: rest =>
      match last_truthy rest with
      | Some y => Some y
      | None => if Py.truthy x then Some x else None
      end
  end.

Definition labels (entry : pyval) : list pyval :=
  map label_of (partitions_of entry).

Definition mounts (entry : pyval) : list pyval :=
  map mount_of (partitions_of entry).

(** The label by the rule: the last non-empty partition label, else the
    name of the last mounted partition's path, else empty. *)
Definition last_label_rule (entry : pyval) : pyval :=
  match last_truthy (labels entry) with
  | Some l => l
  | None =>
      match last_truthy (mounts entry) with
      | Some (VStr s) => VStr (Py.path_name s)
      | _ => VStr ""
      end
  end.

(** An entry of the shape the listing has: a dict, whose ["Disk"] field,
    when it has one, is a dict, whose ["Partitions"] field, when it has one,
    is a list of dicts, and where a partition's mount point is a str. *)
Definition well_formed_partition (partition : pyval) : bool :=
  is_dict partition
  && match mount_of partition with
     | VStr _ => true
     | m => negb (Py.truthy m)
     end.

Definition well_formed_entry (entry : pyval) : bool :=
  is_dict entry
  && is_dict (disk_fields entry)
  && match field entry "Partitions" (VList []) with
     | VList partitions => forallb well_formed_partition partitions
     | _ => false
     end.

(** A listing of well-formed entries. *)
Definition well_formed_listing (doc : pyval) : bool :=
  is_dict doc
  && match field doc "AllDisksAndPartitions" (VList []) with
     | VList entries => forallb well_formed_entry entries
     | _ => false
     end.

(** The partition table of a listing, in table order. *)
Definition table (doc : pyval) : list pyval :=
  flat_map partitions_of (entries_of doc).

Definition is_fat (partition : pyval) : bool :=
  Py.in_strs (field partition "Content" (VStr "")) fat_tags.

(** A listing of the shape the partition-table query has: a dict whose
    entries are a list of dicts, each with a list of dicts as partitions. *)
Definition well_formed_table_entry (entry : pyval) : bool :=
  is_dict entry
  && match field entry "Partitions" (VList []) with
     | VList partitions => forallb is_dict partitions
     | _ => false
     end.

Definition well_formed_table (doc : pyval) : bool :=
  is_dict doc
  && match field doc "AllDisksAndPartitions" (VList []) with
     | VList entries => forallb well_formed_table_entry entries
     | _ => false
     end.

End Response.

Section Describe.

Variable py_repr : pyval -> string.

(** The disk an included entry is listed as. *)
Definition disk_for (entry : pyval) : Disk :=
  let d := Response.disk_fields entry in
  mkDisk ("/dev/" ++ format py_repr (Response.identifier entry))%string
         (Response.last_label_rule entry)
         (Response.field d "Size" (VInt 0))
         (Py.or_else (Response.field d "Content" (VStr "")) (VStr "Unknown"))
         (Response.field d "Removable" (VBool false))
         (Response.field d "Ejectable" (VBool false)).

(** The device path of a partition of the table. *)
Definition partition_path (partition : pyval) : string :=
  ("/dev/" ++ format py_repr
     (Response.field partition "DeviceIdentifier" VNone))%string.

End Describe.

(** ** Paths *)

(** [pathlib.PurePosixPath]: the root, which is empty, ["/"] or ["//"], and
    the components, among which empty ones and ["."] are dropped. *)
Module PosixPath.

Record t : Type := mk {
  root : string;
  parts : list string
}.

Definition components (s : string) : list string :=
  filter (fun c => negb (String.eqb c "") && negb (String.eqb c "."))
         (PyStr.split_on "/"%char s).

(** Exactly two leading slashes are kept as a root of their own. *)
Definition root_of (s : string) : string :=
  match s with
  | String "/" (String "/" (String "/" _)) => "/"
  | String "/" (String "/" _) => "//"
  | String "/" _ => "/"
  | _ => ""
  end.

(** [Path(s)] *)
Definition of_string (s : string) : t := mk (root_of s) (components s).

(** [p.name] *)
Definition name (p : t) : string := last (parts p) "".

(** [str(p)] *)
Definition to_string (p : t) : string :=
  match root p, parts p with
  | EmptyString, [] => "."
  | r, ps => (r ++ String.concat "/" ps)%string
  end.

(** [p / s]: an absolute [s] replaces [p]. *)
Definition joinpath (p : t) (s : string) : t :=
  if PyStr.startswith "/" s then of_string s
  else mk (root p) (parts p ++ components s).

(** [Path(v)] for a value of the response; [Path] accepts a str only. *)
Definition of_value (v : pyval) : result t :=
  match v with
  | VStr s => Ok (of_string s)
  | _ => Raise (Lib TypeError)
  end.

End PosixPath.

(** ** models.py: [Disk.display_name] *)

(** [v != s] for a str [s]: a value of another type differs from it. *)
Definition ne_str (v : pyval) (s : string) : bool :=
  match v with
  | VStr x => negb (String.eqb x s)
  | _ => true
  end.

Definition display_name (py_repr : pyval -> string) (d : Disk) : string :=
  if Py.truthy (volume_name d) && ne_str (volume_name d) "Untitled"
  then (format py_repr (volume_name d) ++ " (" ++ device_path d ++ ")")%string
  else device_path d.

(** ** Commands in sequence *)

Section Session.

(** What a command does when started, and what it prints on its error
    stream, after the commands started before it. *)
Variable shell : list command -> command -> completed.
Variable shell_stderr : list command -> command -> string.
Variable plist_loads : string -> option pyval.

(** [subprocess.run(cmd, capture_output=True, text=True, check=True)] *)
Definition run_in (cmd : command) : M completed :=
  fun t => subprocess_run_check (shell t) cmd t.

(** *** disk_writer.py: [unmount_disk], [eject_disk] *)

Definition unmount_command (device_path : string) : command :=
  ["diskutil"; "unmountDisk"; device_path].

Definition unmount_disk (device_path : string) : M unit :=
  fun t =>
    let cmd := unmount_command device_path in
    match run_in cmd t with
    | (t', Ok _) => (t', Ok tt)
    | (t', Raise (Lib (CalledProcessError _ _))) =>
        (t', Raise (DiskWriterError
                      (Message ("Failed to unmount disk: "
                                  ++ shell_stderr t cmd)%string None)))
    | (t', Raise e) => (t', Raise e)
    end.

Definition eject_command (device_path : string) : command :=
  ["diskutil"; "eject"; device_path].

Definition eject_disk (device_path : string) : M unit :=
  fun t =>
    let cmd := eject_command device_path in
    match run_in cmd t with
    | (t', Ok _) => (t', Ok tt)
    | (t', Raise (Lib (CalledProcessError _ _))) =>
        (t', Raise (DiskWriterError
                      (Message ("Failed to eject disk: "
                                  ++ shell_stderr t cmd)%string None)))
    | (t', Raise e) => (t', Raise e)
    end.

(** *** cloud_init.py: [mount_partition] *)

Definition mount_command (partition_path : string) : command :=
  ["diskutil"; "mount"; partition_path].

(** The first [try] statement: a failure of the mount command is passed
    over. *)
Definition attempt_mount (partition_path : string) : M unit :=
  try_except
    (_ <- run_in (mount_command partition_path) ;; ret tt)
    (fun e =>
       match e with
       | Lib (CalledProcessError _ _) => Some (ret tt)
       | _ => None
       end).

(** The second [try] statement: [Some p] when it returns [p] from the
    function, [None] when control leaves it for the final [raise]. *)
Definition query_mount_point (partition_path : string)
  : M (option PosixPath.t) :=
  try_except
    (result <- run_in (info_command partition_path) ;;
     lift (plist_data <-r loads plist_loads result ;;
           mount_point <-r Py.get plist_data "MountPoint" (VStr "") ;;
           if Py.truthy mount_point
           then p <-r PosixPath.of_value mount_point ;; Ok (Some p)
           else Ok None))
    (fun e =>
       match e with
       | Lib (CalledProcessError _ _) => Some (ret None)
       | _ => None
       end).

Definition mount_partition (partition_path : string) : M PosixPath.t :=
  attempt_mount partition_path ;;;
  found <- query_mount_point partition_path ;;
  match found with
  | Some p => ret p
  | None =>
      raise (CloudInitError (Message "Could not determine mount point" None))
  end.

End Session.

(** ** Files *)

Section Files.

(** The file system: whether a path exists, and what [write_text] does to
    it, which is the file system afterwards and the exception raised, if
    any. *)
Variable FS : Type.
Variable fs_exists : FS -> PosixPath.t -> bool.
Variable fs_write_text : FS -> PosixPath.t -> string -> FS * option lib_exn.

(** [path.write_text(data)] *)
Definition write_text (path : PosixPath.t) (data : string) (fs : FS)
  : FS * result unit :=
  match fs_write_text fs path data with
  | (fs', None) => (fs', Ok tt)
  | (fs', Some e) => (fs', Raise (Lib e))
  end.

(** *** cloud_init.py: [write_cloud_init_files] *)

Definition write_cloud_init_files
           (mount_path : PosixPath.t) (user_data meta_data : string) (fs : FS)
  : FS * result unit :=
  if negb (fs_exists fs mount_path) then
    (fs, Raise (CloudInitError
                  (Message ("Mount point does not exist: "
                              ++ PosixPath.to_string mount_path)%string
                           None)))
  else
    let user_data_path := PosixPath.joinpath mount_path "user-data" in
    match write_text user_data_path user_data fs with
    | (fs1, Raise e) => (fs1, Raise e)
    | (fs1, Ok _) =>
        if negb (String.eqb meta_data "") then
          let meta_data_path := PosixPath.joinpath mount_path "meta-data" in
          write_text meta_data_path meta_data fs1
        else (fs1, Ok tt)
    end.

End Files.

Arguments write_text {FS} fs_write_text path data fs.
Arguments write_cloud_init_files {FS} fs_exists fs_write_text
  mount_path user_data meta_data fs.

(** ** Hosts and responses used as instances *)

Module Sample.

(** Rendering is not reached on the sample values. *)
Definition repr (v : pyval) : string := "".

(** A host on which every command exits with [code] and prints [out]. *)
Definition host (code : Z) (out : string) : command -> completed :=
  fun _ => Completed code out.

Definition no_file (p : string) : bool := false.
Definition every_file (p : string) : bool := true.

(** A parser that reads every output as [doc]. *)
Definition reads (doc : pyval) : string -> option pyval :=
  fun _ => Some doc.

Definition unreadable : string -> option pyval := fun _ => None.

(** An SD card with two labelled partitions, the first mounted. *)
Definition sd_card : pyval :=
  VDict [("DeviceIdentifier", VStr "disk4");
         ("Size", VInt 32000000000);
         ("Content", VStr "FDisk_partition_scheme");
         ("Partitions",
          VList [VDict [("DeviceIdentifier", VStr "disk4s1");
                        ("Content", VStr "Windows_FAT_32");
                        ("VolumeName", VStr "bootfs");
                        ("MountPoint", VStr "/Volumes/bootfs")];
                 VDict [("DeviceIdentifier", VStr "disk4s2");
                        ("Content", VStr "Linux");
                        ("VolumeName", VStr "rootfs")]])].

(** A fixed disk: no flag set, no partition. *)
Definition fixed_disk : pyval :=
  VDict [("Disk", VDict [("DeviceIdentifier", VStr "disk0");
                         ("Size", VInt 500000000000);
                         ("Content", VStr "APFS");
                         ("Removable", VBool false);
                         ("Ejectable", VBool false)]);
         ("Partitions", VList [])].

(** An entry that reports no identifier. *)
Definition nameless : pyval :=
  VDict [("Removable", VBool true); ("Partitions", VList [])].

(** A removable card with one unlabelled, unmounted partition. *)
Definition blank_card : pyval :=
  VDict [("DeviceIdentifier", VStr "disk5");
         ("Removable", VBool true);
         ("Partitions", VList [VDict [("DeviceIdentifier", VStr "disk5s1")]])].

(** A card whose one partition is mounted and has no label. *)
Definition mounted_card : pyval :=
  VDict [("DeviceIdentifier", VStr "disk6");
         ("Partitions",
          VList [VDict [("DeviceIdentifier", VStr "disk6s1");
                        ("MountPoint", VStr "/Volumes/NO NAME")]])].

Definition listing (entries : list pyval) : pyval :=
  VDict [("AllDisksAndPartitions", VList entries)].

(** A table whose FAT partition reports no identifier. *)
Definition anonymous_fat : pyval :=
  listing [VDict [("DeviceIdentifier", VStr "disk4");
                  ("Partitions",
                   VList [VDict [("Content", VStr "Linux");
                                 ("DeviceIdentifier", VStr "disk4s1")];
                          VDict [("Content", VStr "DOS")];
                          VDict [("Content", VStr "FAT32");
                                 ("DeviceIdentifier", VStr "disk4s3")]])]].

(** The response of the device-info query for a volume without a name. *)
Definition unnamed_info : pyval :=
  VDict [("DeviceIdentifier", VStr "disk4");
         ("VolumeName", VStr "");
         ("Size", VInt 32000000000);
         ("Content", VStr "MS-DOS");
         ("Removable", VBool true);
         ("Ejectable", VBool true)].

(** A configuration source: one file, read as a mapping. *)
Definition config_files (p : string) : opened :=
  if String.eqb p "user-data.yaml" then Text "hostname: pi"
  else if String.eqb p "broken.yaml" then Text "a: [1"
  else if String.eqb p "list.yaml" then Text "- a"
  else NoSuchFile.

Definition safe_load (contents : string) : string + yaml :=
  if String.eqb contents "hostname: pi"
  then inr (YDict [(YStr "hostname", YStr "pi")])
  else if String.eqb contents "- a" then inr (YList [YStr "a"])
  else inl "while parsing a flow sequence".

Definition dump (config : yaml) : string :=
  match config with
  | YDict [(YStr "hostname", YStr "pi")] =>
      "hostname: pi" ++ String "010"%char ""
  | _ => ""
  end.

End Sample.

(** ** A session and a file system used as instances *)

Module Fixture.

(** A shell on which mounting fails and the info query answers only once a
    mount has been attempted. *)
Definition word (n : nat) (cmd : command) : string := nth n cmd "".

Definition shell (t : list command) (cmd : command) : completed :=
  if String.eqb (word 1 cmd) "mount" then Completed 1 ""
  else if String.eqb (word 1 cmd) "info"
  then if existsb (fun c => String.eqb (word 1 c) "mount") t
       then Completed 0 "plist"
       else Completed 1 ""
  else Completed 1 "".

Definition shell_stderr (t : list command) (cmd : command) : string :=
  "Resource busy".

(** The answer of the info query for a mounted partition. *)
Definition mounted_info : pyval :=
  VDict [("DeviceIdentifier", VStr "disk4s1");
         ("MountPoint", VStr "/Volumes/bootfs")].

(** A file system: the directories, and the files with their text. *)
Record fs : Type := mkfs {
  dirs : list PosixPath.t;
  files : list (PosixPath.t * string)
}.

Fixpoint same_parts (l1 l2 : list string) : bool :=
  match l1, l2 with
  | [], [] => true
  | x :: l1', y :: l2' => String.eqb x y && same_parts l1' l2'
  | _, _ => false
  end.

Definition same_path (p q : PosixPath.t) : bool :=
  String.eqb (PosixPath.root p) (PosixPath.root q)
  && same_parts (PosixPath.parts p) (PosixPath.parts q).

Definition exists_ (f : fs) (p : PosixPath.t) : bool :=
  existsb (same_path p) (dirs f)
  || existsb (fun kv => same_path p (fst kv)) (files f).

Definition parent (p : PosixPath.t) : PosixPath.t :=
  PosixPath.mk (PosixPath.root p) (removelast (PosixPath.parts p)).

(** Writing needs the parent directory; a file named ["meta-data"] cannot
    be written on this file system. *)
Definition write (f : fs) (p : PosixPath.t) (text : string)
  : fs * option lib_exn :=
  if existsb (same_path (parent p)) (dirs f)
     && negb (String.eqb (PosixPath.name p) "meta-data")
  then (mkfs (dirs f) ((p, text) :: files f), None)
  else (f, Some (OtherOSError (PosixPath.to_string p))).

(** The same without the restriction on the name. *)
Definition write_any (f : fs) (p : PosixPath.t) (text : string)
  : fs * option lib_exn :=
  if existsb (same_path (parent p)) (dirs f)
  then (mkfs (dirs f) ((p, text) :: files f), None)
  else (f, Some (OtherOSError (PosixPath.to_string p))).

Fixpoint lookup (k : PosixPath.t) (l : list (PosixPath.t * string))
  : option string :=
  match l with
  | [] => None
  | (k', v) :: rest => if same_path k k' then Some v else lookup k rest
  end.

Definition read (f : fs) (p : PosixPath.t) : option string :=
  lookup p (files f).

Definition card : fs :=
  mkfs [PosixPath.of_string "/Volumes"; PosixPath.of_string "/Volumes/bootfs"]
       [].

(** A file system on which the mount path is a file, not a directory. *)
Definition plain_file : fs :=
  mkfs [PosixPath.of_string "/Volumes"]
       [(PosixPath.of_string "/Volumes/bootfs", "")].

End Fixture.

(** * Properties *)

(** ** Strings *)

Lemma replace_from_skip (old new w s : string) :
  PyStr.replace_from old new (String.length w) (w ++ s) =
  PyStr.replace_from old new 0 s.
Proof.
  induction w as [|c w IH]; simpl.
  - reflexivity.
  - exact IH.
Qed.

Lemma replace_from_absent (old new s : string) :
  PyStr.contains old s = false ->
  PyStr.replace_from old new 0 s = s.
Proof.
  induction s as [|c rest IH]; intros H.
  - reflexivity.
  - cbn [PyStr.contains] in H. apply orb_false_iff in H as [Hp Hc].
    cbn [PyStr.replace_from]. rewrite Hp. f_equal. apply IH, Hc.
Qed.

Lemma prefix_append (w s : string) : String.prefix w (w ++ s) = true.
Proof.
  induction w as [|c w IH]; simpl.
  - destruct s; reflexivity.
  - destruct (ascii_dec c c) as [_|Hne]; [exact IH | contradiction].
Qed.

Lemma replace_from_occurrence (c : ascii) (w new s : string) :
  PyStr.replace_from (String c w) new 0 (String c w ++ s) =
  (new ++ PyStr.replace_from (String c w) new 0 s)%string.
Proof.
  change (String c w ++ s)%string with (String c (w ++ s)).
  cbn [PyStr.replace_from].
  change (String c (w ++ s)) with (String c w ++ s)%string.
  rewrite prefix_append.
  cbn [String.length]. rewrite Nat.sub_1_r. cbn [Nat.pred].
  rewrite replace_from_skip. reflexivity.
Qed.

Lemma get_raw_device_disk (s : string) :
  get_raw_device ("/dev/disk" ++ s) =
  ("/dev/rdisk" ++ PyStr.replace "/dev/disk" "/dev/rdisk" s)%string.
Proof.
  unfold get_raw_device.
  assert (Hraw : PyStr.startswith "/dev/r" ("/dev/disk" ++ s) = false)
    by reflexivity.
  rewrite Hraw. unfold PyStr.replace.
  apply replace_from_occurrence.
Qed.

(** ** disk_writer.py *)

Section Writer.

Variable os : command -> completed.
Variable path_exists : string -> bool.

(** One run of [burn_image] on an existing image: exactly the copy command
    is started, and its exit status decides the outcome. *)
Lemma burn_image_run (image_path device_path : string) (progress : bool)
      (t : list command) :
  path_exists image_path = true ->
  let cmd := dd_command image_path (get_raw_device device_path) progress in
  burn_image os path_exists image_path device_path progress t =
  (t ++ [cmd],
   if Z.eqb (returncode (os cmd)) 0 then Ok tt
   else Raise (DiskWriterError
                 (Message "Failed to write image: "
                          (Some (CalledProcessError cmd
                                   (returncode (os cmd))))))).
Proof.
  intros Hex cmd. unfold burn_image. rewrite Hex. cbn [negb].
  fold cmd. unfold try_except, bind, subprocess_run_check, ret, raise.
  destruct (Z.eqb (returncode (os cmd)) 0); reflexivity.
Qed.

Lemma dd_command_target (image_path raw_device : string) (progress : bool) :
  nth_error (dd_command image_path raw_device progress) 2 =
  Some ("of=" ++ raw_device)%string.
Proof. destruct progress; reflexivity. Qed.

End Writer.

(** C1. When the image path names no existing file, [burn_image] raises
    [DiskWriterError] at once and starts no command: the trace of commands
    is left as it was.  When the image exists and the copy command exits
    with a non-zero status, [burn_image] raises [DiskWriterError]. *)
Theorem burn_image_errors :
  forall (os : command -> completed) (path_exists : string -> bool)
         (image_path device_path : string) (progress : bool)
         (t : list command),
    (path_exists image_path = false ->
     burn_image os path_exists image_path device_path progress t =
     (t, Raise (DiskWriterError
                  (Message ("Image file not found: " ++ image_path)%string
                           None))))
    /\ (path_exists image_path = true ->
        returncode
          (os (dd_command image_path (get_raw_device device_path) progress))
        <> 0%Z ->
        exists m,
          snd (burn_image os path_exists image_path device_path progress t) =
          Raise (DiskWriterError m)).
Proof.
  intros os path_exists image_path device_path progress t. split.
  - intros Hmissing. unfold burn_image. rewrite Hmissing. reflexivity.
  - intros Hex Hcode. rewrite burn_image_run by exact Hex. cbn [snd].
    apply Z.eqb_neq in Hcode. rewrite Hcode. eexists. reflexivity.
Qed.

Lemma burn_image_errors_witness :
  burn_image (Sample.host 1 "") Sample.no_file "pi.img" "/dev/disk4" true [] =
  ([], Raise (DiskWriterError (Message "Image file not found: pi.img" None)))
  /\ exists m,
      snd (burn_image (Sample.host 1 "") Sample.every_file
                      "pi.img" "/dev/disk4" true []) =
      Raise (DiskWriterError m).
Proof.
  split.
  - apply (proj1 (burn_image_errors (Sample.host 1 "") Sample.no_file
                    "pi.img" "/dev/disk4" true [])).
    reflexivity.
  - apply (proj2 (burn_image_errors (Sample.host 1 "") Sample.every_file
                    "pi.img" "/dev/disk4" true [])).
    + reflexivity.
    + simpl. lia.
Defined.

(** An identifier holds no "/", so none of the text that is rewritten. *)
Lemma no_slash_no_disk_prefix (s : string) :
  PyStr.contains "/" s = false -> PyStr.contains "/dev/disk" s = false.
Proof.
  induction s as [|c s IH]; intros H.
  - reflexivity.
  - cbn [PyStr.contains String.prefix] in H |- *.
    destruct (ascii_dec "/" c) as [Hc|Hc].
    + destruct s; discriminate H.
    + apply IH. exact H.
Qed.

(** C6. [get_raw_device] returns a raw node, a path that starts with
    "/dev/r", unchanged.  It returns "/dev/disk" followed by an identifier
    as "/dev/rdisk" followed by that identifier: the result is a raw node
    and is not the path that was given.  In general a path that is no raw
    node is returned as [str.replace] leaves it, with every occurrence of
    "/dev/disk" replaced by "/dev/rdisk", so a path without an occurrence
    is returned unchanged.  On an existing image [burn_image] starts one
    command, whose [of=] operand is the translated path. *)
Theorem get_raw_device_rewrite :
  forall device_path : string,
    (PyStr.startswith "/dev/r" device_path = true ->
     get_raw_device device_path = device_path)
    /\ (forall identifier : string,
           device_path = ("/dev/disk" ++ identifier)%string ->
           PyStr.contains "/" identifier = false ->
           get_raw_device device_path = ("/dev/rdisk" ++ identifier)%string
           /\ PyStr.startswith "/dev/r" (get_raw_device device_path) = true
           /\ get_raw_device device_path <> device_path)
    /\ (forall s : string,
           device_path = ("/dev/disk" ++ s)%string ->
           get_raw_device device_path =
           ("/dev/rdisk" ++ PyStr.replace "/dev/disk" "/dev/rdisk" s)%string)
    /\ (forall s : string,
           device_path = ("/dev/disk" ++ s)%string ->
           PyStr.contains "/dev/disk" s = false ->
           get_raw_device device_path = ("/dev/rdisk" ++ s)%string)
    /\ (PyStr.startswith "/dev/r" device_path = false ->
        get_raw_device device_path =
        PyStr.replace "/dev/disk" "/dev/rdisk" device_path)
    /\ (PyStr.contains "/dev/disk" device_path = false ->
        get_raw_device device_path = device_path)
    /\ (forall (os : command -> completed) (path_exists : string -> bool)
               (image_path : string) (progress : bool) (t : list command),
           path_exists image_path = true ->
           let cmd :=
             dd_command image_path (get_raw_device device_path) progress in
           fst (burn_image os path_exists image_path device_path progress t) =
           t ++ [cmd]
           /\ nth_error cmd 2 =
              Some ("of=" ++ get_raw_device device_path)%string).
Proof.
  intros device_path.
  assert (Hdisk : forall s : string,
             PyStr.contains "/dev/disk" s = false ->
             get_raw_device ("/dev/disk" ++ s) = ("/dev/rdisk" ++ s)%string).
  { intros s Habsent. rewrite get_raw_device_disk.
    unfold PyStr.replace. rewrite replace_from_absent by exact Habsent.
    reflexivity. }
  split; [|split; [|split; [|split; [|split; [|split]]]]].
  - intros Hraw. unfold get_raw_device. rewrite Hraw. reflexivity.
  - intros identifier -> Hid.
    rewrite (Hdisk identifier (no_slash_no_disk_prefix identifier Hid)).
    split; [reflexivity|]. split; [reflexivity|].
    intros H. discriminate H.
  - intros s ->. apply get_raw_device_disk.
  - intros s -> Habsent. exact (Hdisk s Habsent).
  - intros Hraw. unfold get_raw_device. rewrite Hraw. reflexivity.
  - intros Habsent. unfold get_raw_device.
    destruct (PyStr.startswith "/dev/r" device_path); [reflexivity|].
    unfold PyStr.replace. apply replace_from_absent, Habsent.
  - intros os path_exists image_path progress t Hex cmd. split.
    + rewrite burn_image_run by exact Hex. reflexivity.
    + apply dd_command_target.
Qed.

Lemma get_raw_device_rewrite_witness :
  get_raw_device "/dev/rdisk4" = "/dev/rdisk4"
  /\ (get_raw_device "/dev/disk4s1" = "/dev/rdisk4s1"
      /\ PyStr.startswith "/dev/r" (get_raw_device "/dev/disk4s1") = true
      /\ get_raw_device "/dev/disk4s1" <> "/dev/disk4s1")
  /\ get_raw_device "/dev/disk4" = "/dev/rdisk4"
  /\ get_raw_device "/Volumes/dev/disk2" =
     PyStr.replace "/dev/disk" "/dev/rdisk" "/Volumes/dev/disk2"
  /\ get_raw_device "/dev/sda" = "/dev/sda"
  /\ fst (burn_image (Sample.host 0 "") Sample.every_file
                     "pi.img" "/dev/disk4" false []) =
     [["dd"; "if=pi.img"; "of=/dev/rdisk4"; "bs=1m"]].
Proof.
  split; [|split; [|split; [|split; [|split]]]].
  - apply (proj1 (get_raw_device_rewrite "/dev/rdisk4")). reflexivity.
  - apply (proj1 (proj2 (get_raw_device_rewrite "/dev/disk4s1")) "4s1");
      reflexivity.
  - apply (proj1 (proj2 (proj2 (proj2 (get_raw_device_rewrite "/dev/disk4"))))
             "4");
      reflexivity.
  - apply (proj1 (proj2 (proj2 (proj2 (proj2
             (get_raw_device_rewrite "/Volumes/dev/disk2")))))).
    reflexivity.
  - apply (proj1 (proj2 (proj2 (proj2 (proj2 (proj2
             (get_raw_device_rewrite "/dev/sda"))))))).
    reflexivity.
  - apply (proj1 (proj2 (proj2 (proj2 (proj2 (proj2 (proj2
             (get_raw_device_rewrite "/dev/disk4"))))))
             (Sample.host 0 "") Sample.every_file "pi.img" false []
             eq_refl)).
Defined.

(** ** disk_detector.py *)

Lemma get_dict (v : pyval) (k : string) (default : pyval) :
  Response.is_dict v = true ->
  Py.get v k default = Ok (Response.field v k default).
Proof. destruct v; intros H; try discriminate H. reflexivity. Qed.

Lemma last_truthy_truthy (l : list pyval) (x : pyval) :
  Response.last_truthy l = Some x -> Py.truthy x = true.
Proof.
  induction l as [|y l IH]; cbn; intros H.
  - discriminate H.
  - destruct (Response.last_truthy l) as [z|].
    + apply IH. exact H.
    + destruct (Py.truthy y) eqn:Hy; congruence.
Qed.

Lemma last_truthy_none (l : list pyval) :
  Response.last_truthy l = None <-> existsb Py.truthy l = false.
Proof.
  induction l as [|y l IH]; cbn.
  - tauto.
  - destruct (Response.last_truthy l) as [z|]; destruct (Py.truthy y);
      cbn; try exact IH; split; discriminate.
Qed.

Lemma last_truthy_absent (f : pyval -> pyval) (l : list pyval) :
  forallb (fun q => negb (Py.truthy (f q))) l = true ->
  Response.last_truthy (map f l) = None.
Proof.
  induction l as [|y l IH]; cbn; intros H; [reflexivity|].
  apply andb_true_iff in H as [Hy Hl]. apply negb_true_iff in Hy.
  rewrite (IH Hl), Hy. reflexivity.
Qed.

(** The last non-empty value is that of the element after which all values
    are empty. *)
Lemma last_truthy_split (f : pyval -> pyval) (before after : list pyval)
      (p : pyval) :
  Py.truthy (f p) = true ->
  forallb (fun q => negb (Py.truthy (f q))) after = true ->
  Response.last_truthy (map f (before ++ p :: after)) = Some (f p).
Proof.
  intros Hp Hafter. induction before as [|y before IH]; cbn.
  - rewrite (last_truthy_absent f after Hafter), Hp. reflexivity.
  - cbn in IH. rewrite IH. reflexivity.
Qed.

(** The partition loop leaves in its two variables the last non-empty label
    and the last non-empty mount point, if any. *)
Lemma scan_partitions_last (partitions : list pyval) :
  forall volume_name mount_point : pyval,
    forallb Response.is_dict partitions = true ->
    scan_partitions partitions volume_name mount_point =
    Ok (match Response.last_truthy (map Response.label_of partitions) with
        | Some l => l
        | None => volume_name
        end,
        match Response.last_truthy (map Response.mount_of partitions) with
        | Some m => m
        | None => mount_point
        end).
Proof.
  induction partitions as [|p rest IH]; intros volume_name mount_point Hwf.
  - reflexivity.
  - cbn [forallb] in Hwf. apply andb_true_iff in Hwf as [Hp Hrest].
    cbn [scan_partitions].
    rewrite (get_dict _ _ _ Hp). cbn [rbind].
    rewrite (get_dict _ _ _ Hp). cbn [rbind].
    rewrite IH by exact Hrest.
    cbn [map Response.last_truthy].
    fold (Response.label_of p). fold (Response.mount_of p).
    destruct (Response.last_truthy (map Response.label_of rest));
      destruct (Response.last_truthy (map Response.mount_of rest));
      destruct (Py.truthy (Response.label_of p));
      destruct (Py.truthy (Response.mount_of p)); reflexivity.
Qed.

Lemma well_formed_partitions_dicts (partitions : list pyval) :
  forallb Response.well_formed_partition partitions = true ->
  forallb Response.is_dict partitions = true.
Proof.
  induction partitions as [|p rest IH]; cbn; intros H.
  - reflexivity.
  - apply andb_true_iff in H as [Hp Hrest].
    unfold Response.well_formed_partition in Hp.
    apply andb_true_iff in Hp as [Hp _].
    rewrite Hp, IH by exact Hrest. reflexivity.
Qed.

(** In a well-formed partition list a non-empty mount point is a str. *)
Lemma well_formed_mount_str (partitions : list pyval) (m : pyval) :
  forallb Response.well_formed_partition partitions = true ->
  Response.last_truthy (map Response.mount_of partitions) = Some m ->
  exists s, m = VStr s.
Proof.
  induction partitions as [|p rest IH]; cbn; intros Hwf H.
  - discriminate H.
  - apply andb_true_iff in Hwf as [Hp Hrest].
    destruct (Response.last_truthy (map Response.mount_of rest)) as [z|].
    + apply IH; assumption.
    + destruct (Py.truthy (Response.mount_of p)) eqn:Ht; [|discriminate H].
      injection H as <-.
      unfold Response.well_formed_partition in Hp.
      apply andb_true_iff in Hp as [_ Hp].
      destruct (Response.mount_of p); try (rewrite Ht in Hp; discriminate Hp).
      eexists. reflexivity.
Qed.

Lemma existsb_truthy_map (f : pyval -> pyval) (l : list pyval) :
  existsb Py.truthy (map f l) = existsb (fun p => Py.truthy (f p)) l.
Proof.
  induction l as [|x l IH]; cbn; [reflexivity | rewrite IH; reflexivity].
Qed.

Lemma get_ok (v : pyval) (k : string) (default x : pyval) :
  Py.get v k default = Ok x ->
  Response.is_dict v = true /\ x = Response.field v k default.
Proof.
  destruct v; cbn; intros H; try discriminate H.
  injection H as <-. split; reflexivity.
Qed.

Lemma scan_partitions_ok (partitions : list pyval) :
  forall (volume_name mount_point : pyval) (r : pyval * pyval),
    scan_partitions partitions volume_name mount_point = Ok r ->
    forallb Response.is_dict partitions = true.
Proof.
  induction partitions as [|p rest IH]; intros volume_name mount_point r H.
  - reflexivity.
  - cbn [scan_partitions] in H.
    destruct (Py.get p "VolumeName" (VStr "")) as [l|] eqn:Hl;
      [|discriminate H].
    apply get_ok in Hl as [Hp _]. cbn [rbind] in H.
    rewrite (get_dict _ _ _ Hp) in H. cbn [rbind] in H.
    cbn [forallb]. rewrite Hp. exact (IH _ _ _ H).
Qed.

(** Iteration that yields a dict first runs over a list. *)
Lemma iter_head_dict (v x : pyval) (rest : list pyval) :
  Py.iter v = Ok (x :: rest) ->
  Response.is_dict x = true ->
  v = VList (x :: rest).
Proof.
  destruct v; cbn; intros H Hx; try discriminate H.
  - destruct s; cbn in H; [discriminate H|].
    injection H as <- _. discriminate Hx.
  - destruct bytes; cbn in H; [discriminate H|].
    injection H as <- _. discriminate Hx.
  - injection H as ->. reflexivity.
  - destruct bindings; cbn in H; [discriminate H|].
    injection H as <- _. discriminate Hx.
Qed.

(** What the items of an iteration that yields dicts only say of the value
    iterated: they are its elements when it is a list, and there is none
    otherwise; the value is non-empty when there is one. *)
Lemma iter_dicts (v : pyval) (items : list pyval) :
  Py.iter v = Ok items ->
  forallb Response.is_dict items = true ->
  items = match v with VList l => l | _ => [] end
  /\ Py.truthy v = match items with [] => false | _ :: _ => true end.
Proof.
  intros Hit Hdicts. destruct items as [|x rest].
  - destruct v; cbn in Hit; try discriminate Hit.
    + destruct s; [split; reflexivity | discriminate Hit].
    + destruct bytes; [split; reflexivity | discriminate Hit].
    + injection Hit as ->. split; reflexivity.
    + destruct bindings; [split; reflexivity | discriminate Hit].
  - cbn [forallb] in Hdicts. apply andb_true_iff in Hdicts as [Hx _].
    rewrite (iter_head_dict _ _ _ Hit Hx). split; reflexivity.
Qed.


Lemma disk_fields_choice (entry : pyval) :
  (if negb (Py.truthy (Response.field entry "Disk" (VDict [])))
   then entry else Response.field entry "Disk" (VDict [])) =
  Response.disk_fields entry.
Proof.
  unfold Response.disk_fields.
  destruct (Py.truthy (Response.field entry "Disk" (VDict []))); reflexivity.
Qed.

Lemma truthy_last_mount (l : list pyval) :
  Py.truthy match Response.last_truthy l with
            | Some m => m
            | None => VStr ""
            end = existsb Py.truthy l.
Proof.
  destruct (Response.last_truthy l) as [m|] eqn:Hm.
  - rewrite (last_truthy_truthy _ _ Hm).
    destruct (existsb Py.truthy l) eqn:E; [reflexivity|].
    apply last_truthy_none in E. congruence.
  - apply last_truthy_none in Hm. rewrite Hm. reflexivity.
Qed.

(** The loop body on an entry with an identifier whose partitions are
    dicts: the only step left that can raise is [Path] on the mount point. *)
Lemma disk_of_entry_scanned (py_repr : pyval -> string) (entry : pyval)
      (items : list pyval) :
  Response.is_dict entry = true ->
  Response.is_dict (Response.disk_fields entry) = true ->
  Response.resolvable entry = true ->
  Py.iter (Response.field entry "Partitions" (VList [])) = Ok items ->
  forallb Response.is_dict items = true ->
  disk_of_entry py_repr entry =
  match Response.last_truthy (Response.labels entry),
        Response.last_truthy (Response.mounts entry) with
  | None, Some m =>
      _ <-r Py.Path_name m ;;
      Ok (if Response.included entry
          then Some (disk_for py_repr entry) else None)
  | _, _ =>
      Ok (if Response.included entry
          then Some (disk_for py_repr entry) else None)
  end.
Proof.
  intros He Hd Hid Hit Hdicts.
  destruct (iter_dicts _ _ Hit Hdicts) as [Hitems Htruthy].
  unfold disk_of_entry.
  rewrite (get_dict _ _ _ He). cbn [rbind]. rewrite disk_fields_choice.
  rewrite (get_dict _ "DeviceIdentifier" _ Hd). cbn [rbind].
  fold (Response.identifier entry). unfold Response.resolvable in Hid.
  rewrite Hid. cbn [negb].
  rewrite !(get_dict (Response.disk_fields entry)) by exact Hd. cbn [rbind].
  rewrite (get_dict _ "Partitions" _ He). cbn [rbind].
  rewrite Hit. cbn [rbind].
  rewrite scan_partitions_last by exact Hdicts. cbn [rbind].
  rewrite Htruthy, !truthy_last_mount.
  unfold Response.included, Response.has_mounted_partition,
    Response.has_partition, Response.marked_removable,
    Response.marked_ejectable, disk_for, Response.last_label_rule,
    Response.labels, Response.mounts, Response.partitions_of, Py.or_else.
  rewrite <- Hitems.
  rewrite <- (existsb_truthy_map Response.mount_of).
  rewrite <- (truthy_last_mount (map Response.label_of items)).
  destruct (Response.last_truthy (map Response.label_of items))
    as [l|] eqn:Hl.
  - rewrite (last_truthy_truthy _ _ Hl). cbn [negb andb rbind].
    match goal with |- (if ?c then _ else _) = _ => destruct c end;
      destruct (Response.last_truthy (map Response.mount_of items));
      reflexivity.
  - cbn [Py.truthy String.eqb negb andb].
    destruct (Response.last_truthy (map Response.mount_of items))
      as [m|] eqn:Hm.
    + rewrite <- (truthy_last_mount (map Response.mount_of items)), Hm.
      rewrite (last_truthy_truthy _ _ Hm).
      destruct m; cbn [Py.Path_name rbind]; try reflexivity.
      rewrite !orb_true_r. reflexivity.
    + apply last_truthy_none in Hm. rewrite Hm. cbn [rbind].
      match goal with |- (if ?c then _ else _) = _ => destruct c end;
        reflexivity.
Qed.

(** An entry without a resolvable identifier is passed over before its
    partitions are looked at. *)
Lemma disk_of_entry_unresolvable (py_repr : pyval -> string) (entry : pyval) :
  Response.is_dict entry = true ->
  Response.is_dict (Response.disk_fields entry) = true ->
  Response.resolvable entry = false ->
  disk_of_entry py_repr entry = Ok None.
Proof.
  intros He Hd Hid. unfold disk_of_entry.
  rewrite (get_dict _ _ _ He). cbn [rbind]. rewrite disk_fields_choice.
  rewrite (get_dict _ "DeviceIdentifier" _ Hd). cbn [rbind].
  fold (Response.identifier entry). unfold Response.resolvable in Hid.
  rewrite Hid. reflexivity.
Qed.

(** On a well-formed entry the loop body computes what the words of the
    specification describe. *)
Lemma disk_of_entry_well_formed (py_repr : pyval -> string) (entry : pyval) :
  Response.well_formed_entry entry = true ->
  disk_of_entry py_repr entry =
  Ok (if Response.resolvable entry && Response.included entry
      then Some (disk_for py_repr entry)
      else None).
Proof.
  intros Hwf. unfold Response.well_formed_entry in Hwf.
  apply andb_true_iff in Hwf as [Hwf Hparts].
  apply andb_true_iff in Hwf as [He Hd].
  destruct (Response.resolvable entry) eqn:Hid; cbn [andb].
  - destruct (Response.field entry "Partitions" (VList []))
      as [| | | | | | |partitions|] eqn:Hps; try discriminate Hparts.
    assert (Hit : Py.iter (Response.field entry "Partitions" (VList [])) =
                  Ok partitions) by (rewrite Hps; reflexivity).
    rewrite (disk_of_entry_scanned py_repr entry partitions He Hd Hid Hit
               (well_formed_partitions_dicts _ Hparts)).
    destruct (Response.last_truthy (Response.labels entry)); [reflexivity|].
    destruct (Response.last_truthy (Response.mounts entry)) as [m|] eqn:Hm;
      [|reflexivity].
    unfold Response.mounts, Response.partitions_of in Hm. rewrite Hps in Hm.
    destruct (well_formed_mount_str _ _ Hparts Hm) as [s ->]. reflexivity.
  - apply disk_of_entry_unresolvable; assumption.
Qed.

(** Whatever the entry, when the loop body raises nothing it has computed
    what the words of the specification describe. *)
Lemma disk_of_entry_sound (py_repr : pyval -> string) (entry : pyval)
      (appended : option Disk) :
  disk_of_entry py_repr entry = Ok appended ->
  Response.is_dict entry = true
  /\ appended = if Response.resolvable entry && Response.included entry
                then Some (disk_for py_repr entry)
                else None.
Proof.
  intros H.
  assert (He : Response.is_dict entry = true).
  { unfold disk_of_entry in H.
    destruct (Py.get entry "Disk" (VDict [])) eqn:H0; [|discriminate H].
    apply get_ok in H0 as [He _]. exact He. }
  split; [exact He|].
  assert (Hd : Response.is_dict (Response.disk_fields entry) = true).
  { unfold disk_of_entry in H.
    rewrite (get_dict _ _ _ He) in H. cbn [rbind] in H.
    rewrite disk_fields_choice in H.
    destruct (Py.get (Response.disk_fields entry) "DeviceIdentifier" (VStr ""))
      eqn:H1; [|discriminate H].
    apply get_ok in H1 as [Hd _]. exact Hd. }
  destruct (Response.resolvable entry) eqn:Hid; cbn [andb].
  - assert (Hparts : exists items,
               Py.iter (Response.field entry "Partitions" (VList [])) =
               Ok items
               /\ forallb Response.is_dict items = true).
    { unfold disk_of_entry in H.
      rewrite (get_dict _ _ _ He) in H. cbn [rbind] in H.
      rewrite disk_fields_choice in H.
      rewrite (get_dict _ "DeviceIdentifier" _ Hd) in H. cbn [rbind] in H.
      fold (Response.identifier entry) in H.
      unfold Response.resolvable in Hid. rewrite Hid in H. cbn [negb] in H.
      rewrite !(get_dict (Response.disk_fields entry)) in H by exact Hd.
      cbn [rbind] in H.
      rewrite (get_dict _ "Partitions" _ He) in H. cbn [rbind] in H.
      destruct (Py.iter (Response.field entry "Partitions" (VList [])))
        as [items|]; [|discriminate H].
      cbn [rbind] in H. exists items. split; [reflexivity|].
      destruct (scan_partitions items (VStr "") (VStr "")) as [r|] eqn:Hscan;
        [|discriminate H].
      exact (scan_partitions_ok _ _ _ _ Hscan). }
    destruct Hparts as [items [Hit Hdicts]].
    rewrite (disk_of_entry_scanned py_repr entry items He Hd Hid Hit Hdicts)
      in H.
    destruct (Response.last_truthy (Response.labels entry));
      [injection H as <-; reflexivity|].
    destruct (Response.last_truthy (Response.mounts entry)) as [m|];
      [|injection H as <-; reflexivity].
    destruct (Py.Path_name m); [|discriminate H].
    cbn [rbind] in H. injection H as <-. reflexivity.
  - rewrite (disk_of_entry_unresolvable py_repr entry He Hd Hid) in H.
    injection H as <-. reflexivity.
Qed.

Lemma collect_disks_well_formed (py_repr : pyval -> string)
      (entries : list pyval) :
  forall disks : list Disk,
    forallb Response.well_formed_entry entries = true ->
    collect_disks py_repr entries disks =
    Ok (disks ++ map (disk_for py_repr) (Response.listed entries)).
Proof.
  induction entries as [|e rest IH]; intros disks Hwf.
  - cbn. rewrite app_nil_r. reflexivity.
  - cbn [forallb] in Hwf. apply andb_true_iff in Hwf as [He Hrest].
    cbn [collect_disks]. rewrite disk_of_entry_well_formed by exact He.
    cbn [rbind]. rewrite IH by exact Hrest.
    unfold Response.listed. cbn [filter].
    destruct (Response.resolvable e && Response.included e).
    + cbn [map]. rewrite <- app_assoc. reflexivity.
    + reflexivity.
Qed.

Lemma collect_disks_sound (py_repr : pyval -> string)
      (entries : list pyval) :
  forall disks result : list Disk,
    collect_disks py_repr entries disks = Ok result ->
    forallb Response.is_dict entries = true
    /\ result = disks ++ map (disk_for py_repr) (Response.listed entries).
Proof.
  induction entries as [|e rest IH]; intros disks result H.
  - cbn in H. injection H as <-. rewrite app_nil_r. split; reflexivity.
  - cbn [collect_disks] in H.
    destruct (disk_of_entry py_repr e) as [appended|] eqn:He;
      [|discriminate H].
    apply disk_of_entry_sound in He as [Hdict ->]. cbn [rbind] in H.
    apply IH in H as [Hrest ->].
    cbn [forallb]. rewrite Hdict, Hrest. split; [reflexivity|].
    unfold Response.listed. cbn [filter].
    destruct (Response.resolvable e && Response.included e).
    + cbn [map]. rewrite <- app_assoc. reflexivity.
    + reflexivity.
Qed.

Section Detector.

Variable os : command -> completed.
Variable plist_loads : string -> option pyval.
Variable py_repr : pyval -> string.

(** One run of [list_external_disks]: the listing command is started, and
    the outcome is read off its exit status and its parsed output. *)
Lemma list_external_disks_run (t : list command) :
  list_external_disks os plist_loads py_repr t =
  (t ++ [list_command],
   if Z.eqb (returncode (os list_command)) 0 then
     match plist_loads (stdout (os list_command)) with
     | Some doc =>
         all <-r Py.get doc "AllDisksAndPartitions" (VList []) ;;
         entries <-r Py.iter all ;;
         collect_disks py_repr entries []
     | None => Raise (Lib InvalidPlist)
     end
   else Raise (Lib (CalledProcessError list_command
                      (returncode (os list_command))))).
Proof.
  unfold list_external_disks, bind, subprocess_run_check, lift, loads.
  destruct (Z.eqb (returncode (os list_command)) 0); [|reflexivity].
  destruct (plist_loads (stdout (os list_command))); reflexivity.
Qed.

Lemma get_disk_info_run (device : string) (t : list command) :
  let cmd := info_command device in
  get_disk_info os plist_loads py_repr device t =
  (t ++ [cmd],
   if Z.eqb (returncode (os cmd)) 0 then
     match plist_loads (stdout (os cmd)) with
     | Some doc =>
         device_identifier <-r Py.get doc "DeviceIdentifier" (VStr "") ;;
         volume_name <-r Py.get doc "VolumeName" (VStr "") ;;
         size <-r Py.get doc "Size" (VInt 0) ;;
         content <-r Py.get doc "Content" (VStr "") ;;
         removable <-r Py.get doc "Removable" (VBool false) ;;
         ejectable <-r Py.get doc "Ejectable" (VBool false) ;;
         Ok (mkDisk ("/dev/" ++ format py_repr device_identifier)%string
                    (Py.or_else volume_name (VStr "Untitled")) size
                    (Py.or_else content (VStr "Unknown"))
                    removable ejectable)
     | None => Raise (Lib InvalidPlist)
     end
   else Raise (Lib (CalledProcessError cmd (returncode (os cmd))))).
Proof.
  intros cmd.
  unfold get_disk_info, bind, subprocess_run_check, lift, loads. fold cmd.
  destruct (Z.eqb (returncode (os cmd)) 0); [|reflexivity].
  destruct (plist_loads (stdout (os cmd))); reflexivity.
Qed.

(** A well-formed listing yields the disks of its listed entries, in
    order. *)
Lemma list_external_disks_well_formed (doc : pyval) (t : list command) :
  returncode (os list_command) = 0%Z ->
  plist_loads (stdout (os list_command)) = Some doc ->
  Response.well_formed_listing doc = true ->
  list_external_disks os plist_loads py_repr t =
  (t ++ [list_command],
   Ok (map (disk_for py_repr) (Response.listed (Response.entries_of doc)))).
Proof.
  intros Hcode Hdoc Hwf.
  unfold Response.well_formed_listing in Hwf.
  apply andb_true_iff in Hwf as [Hdict Hwf].
  rewrite list_external_disks_run, Hcode, Hdoc. cbn [Z.eqb].
  rewrite (get_dict _ _ _ Hdict). unfold Response.entries_of.
  destruct (Response.field doc "AllDisksAndPartitions" (VList []))
    as [| | | | | | |entries|]; try discriminate Hwf.
  cbn [rbind Py.iter].
  rewrite collect_disks_well_formed by exact Hwf. reflexivity.
Qed.

Lemma well_formed_listing_entries (doc : pyval) :
  Response.well_formed_listing doc = true ->
  forallb Response.well_formed_entry (Response.entries_of doc) = true.
Proof.
  unfold Response.well_formed_listing, Response.entries_of. intros Hwf.
  apply andb_true_iff in Hwf as [_ Hwf].
  destruct (Response.field doc "AllDisksAndPartitions" (VList []));
    try discriminate Hwf.
  exact Hwf.
Qed.

(** Whatever the response, a list that is returned holds the disks of the
    listed entries of the parsed response, in order. *)
Lemma list_external_disks_sound (t : list command) (result : list Disk) :
  snd (list_external_disks os plist_loads py_repr t) = Ok result ->
  returncode (os list_command) = 0%Z
  /\ exists doc : pyval,
      plist_loads (stdout (os list_command)) = Some doc
      /\ Response.is_dict doc = true
      /\ result = map (disk_for py_repr)
                      (Response.listed (Response.entries_of doc)).
Proof.
  rewrite list_external_disks_run. cbn [snd]. intros H.
  destruct (Z.eqb (returncode (os list_command)) 0) eqn:Hcode;
    [|discriminate H].
  apply Z.eqb_eq in Hcode. split; [exact Hcode|].
  destruct (plist_loads (stdout (os list_command))) as [doc|];
    [|discriminate H].
  exists doc. split; [reflexivity|].
  destruct (Py.get doc "AllDisksAndPartitions" (VList [])) as [all|] eqn:Hall;
    [|discriminate H].
  apply get_ok in Hall as [Hdict ->]. cbn [rbind] in H.
  split; [exact Hdict|].
  destruct (Py.iter (Response.field doc "AllDisksAndPartitions" (VList [])))
    as [entries|] eqn:Hit; [|discriminate H].
  cbn [rbind] in H. apply collect_disks_sound in H as [Hdicts ->].
  destruct (iter_dicts _ _ Hit Hdicts) as [-> _]. reflexivity.
Qed.

End Detector.

(** C2. Whatever the response of the device listing, a list returned by
    [list_external_disks] holds the disks of exactly those entries that have
    a resolvable identifier and are marked removable, or ejectable, or have
    a mounted partition, or have a partition at all, in the order of the
    listing; and on a well-formed listing a list is returned.  A listing
    whose entries are all non-removable, non-ejectable, unmounted and
    partition-less yields the empty list, and an entry without a resolvable
    identifier is passed over without an error. *)
Theorem list_external_disks_inclusion :
  forall (os : command -> completed) (plist_loads : string -> option pyval)
         (py_repr : pyval -> string) (t : list command),
    (forall result : list Disk,
        snd (list_external_disks os plist_loads py_repr t) = Ok result ->
        exists doc : pyval,
          plist_loads (stdout (os list_command)) = Some doc
          /\ result = map (disk_for py_repr)
                          (Response.listed (Response.entries_of doc)))
    /\ (forall doc : pyval,
           returncode (os list_command) = 0%Z ->
           plist_loads (stdout (os list_command)) = Some doc ->
           Response.well_formed_listing doc = true ->
           snd (list_external_disks os plist_loads py_repr t) =
           Ok (map (disk_for py_repr)
                   (Response.listed (Response.entries_of doc)))
           /\ (forallb (fun e => negb (Response.included e))
                       (Response.entries_of doc) = true ->
               snd (list_external_disks os plist_loads py_repr t) = Ok [])
           /\ (forall e : pyval,
                  In e (Response.entries_of doc) ->
                  Response.resolvable e = false ->
                  disk_of_entry py_repr e = Ok None))
    /\ (forall (entries : list pyval) (e : pyval),
           In e entries ->
           Response.resolvable e = true ->
           (In e (Response.listed entries) <->
            Response.marked_removable e = true
            \/ Response.marked_ejectable e = true
            \/ Response.has_mounted_partition e = true
            \/ Response.has_partition e = true))
    /\ (forall (entries : list pyval) (e : pyval),
           Response.resolvable e = false ->
           ~ In e (Response.listed entries)).
Proof.
  intros os plist_loads py_repr t. split; [|split; [|split]].
  - intros result H.
    destruct (list_external_disks_sound os plist_loads py_repr t result H)
      as [_ [doc [Hdoc [_ Hresult]]]].
    exists doc. split; assumption.
  - intros doc Hcode Hdoc Hwf.
    rewrite (list_external_disks_well_formed os plist_loads py_repr
               doc t Hcode Hdoc Hwf).
    cbn [snd]. split; [reflexivity|split].
    + intros Hnone. f_equal.
      replace (Response.listed (Response.entries_of doc)) with (@nil pyval);
        [reflexivity|].
      symmetry. unfold Response.listed.
      induction (Response.entries_of doc) as [|e rest IH]; [reflexivity|].
      cbn [forallb] in Hnone. apply andb_true_iff in Hnone as [He Hrest].
      cbn [filter]. apply negb_true_iff in He. rewrite He, andb_false_r.
      apply IH, Hrest.
    + intros e Hin Hid.
      apply well_formed_listing_entries in Hwf.
      rewrite forallb_forall in Hwf. specialize (Hwf e Hin).
      rewrite disk_of_entry_well_formed by exact Hwf.
      rewrite Hid. reflexivity.
  - intros entries e Hin Hid. unfold Response.listed. rewrite filter_In, Hid.
    unfold Response.included. cbn [andb]. rewrite !orb_true_iff. tauto.
  - intros entries e Hid. unfold Response.listed. rewrite filter_In, Hid.
    cbn [andb]. intros [_ H]. discriminate H.
Qed.

Lemma list_external_disks_inclusion_witness :
  (exists doc : pyval,
      Sample.reads (Sample.listing [Sample.sd_card; Sample.fixed_disk])
                   (stdout (Sample.host 0 "plist" list_command)) = Some doc
      /\ [disk_for Sample.repr Sample.sd_card] =
         map (disk_for Sample.repr)
             (Response.listed (Response.entries_of doc)))
  /\ snd (list_external_disks
            (Sample.host 0 "plist")
            (Sample.reads (Sample.listing
                             [Sample.sd_card; Sample.fixed_disk;
                              Sample.nameless; Sample.blank_card]))
            Sample.repr []) =
     Ok (map (disk_for Sample.repr) [Sample.sd_card; Sample.blank_card])
  /\ snd (list_external_disks
            (Sample.host 0 "plist")
            (Sample.reads (Sample.listing [Sample.fixed_disk]))
            Sample.repr []) = Ok []
  /\ disk_of_entry Sample.repr Sample.nameless = Ok None
  /\ (In Sample.blank_card
         (Response.listed [Sample.fixed_disk; Sample.blank_card]) <->
      Response.marked_removable Sample.blank_card = true
      \/ Response.marked_ejectable Sample.blank_card = true
      \/ Response.has_mounted_partition Sample.blank_card = true
      \/ Response.has_partition Sample.blank_card = true)
  /\ ~ In Sample.nameless (Response.listed [Sample.nameless]).
Proof.
  split; [|split; [|split; [|split; [|split]]]].
  - apply (proj1 (list_external_disks_inclusion
             (Sample.host 0 "plist")
             (Sample.reads (Sample.listing [Sample.sd_card; Sample.fixed_disk]))
             Sample.repr [])).
    reflexivity.
  - apply (proj1 (proj2 (list_external_disks_inclusion
             (Sample.host 0 "plist")
             (Sample.reads (Sample.listing
                              [Sample.sd_card; Sample.fixed_disk;
                               Sample.nameless; Sample.blank_card]))
             Sample.repr []))
             (Sample.listing [Sample.sd_card; Sample.fixed_disk;
                              Sample.nameless; Sample.blank_card])
             eq_refl eq_refl eq_refl).
  - apply (proj1 (proj2 (list_external_disks_inclusion
             (Sample.host 0 "plist")
             (Sample.reads (Sample.listing [Sample.fixed_disk]))
             Sample.repr []))
             (Sample.listing [Sample.fixed_disk])
             eq_refl eq_refl eq_refl).
    reflexivity.
  - apply (proj1 (proj2 (list_external_disks_inclusion
             (Sample.host 0 "plist")
             (Sample.reads (Sample.listing
                              [Sample.sd_card; Sample.nameless]))
             Sample.repr []))
             (Sample.listing [Sample.sd_card; Sample.nameless])
             eq_refl eq_refl eq_refl).
    + right. left. reflexivity.
    + reflexivity.
  - apply (proj1 (proj2 (proj2 (list_external_disks_inclusion
             (Sample.host 0 "plist") Sample.unreadable Sample.repr [])))
             [Sample.fixed_disk; Sample.blank_card] Sample.blank_card).
    + right. left. reflexivity.
    + reflexivity.
  - apply (proj2 (proj2 (proj2 (list_external_disks_inclusion
             (Sample.host 0 "plist") Sample.unreadable Sample.repr [])))
             [Sample.nameless] Sample.nameless).
    reflexivity.
Defined.

(** C3, as stated, fails: for a card with two labelled partitions, "bootfs"
    before "rootfs", the disk listed carries the label of the second one,
    not of the first. *)
Lemma label_is_not_the_first :
  exists d : Disk,
    snd (list_external_disks (Sample.host 0 "plist")
           (Sample.reads (Sample.listing [Sample.sd_card]))
           Sample.repr []) = Ok [d]
    /\ Response.first_truthy (Response.labels Sample.sd_card) =
       Some (VStr "bootfs")
    /\ volume_name d = VStr "rootfs"
    /\ volume_name d <> VStr "bootfs".
Proof.
  exists (disk_for Sample.repr Sample.sd_card).
  split; [reflexivity|]. split; [reflexivity|]. split; [reflexivity|].
  discriminate.
Qed.

(** C3, amended.  Whatever the entry, a disk listed for it has as its label
    the LAST non-empty partition label in partition order; when no partition
    has a non-empty label, the last path component of the mount path of the
    last mounted partition; and the empty string when no partition is
    mounted either.  A well-formed entry with a resolvable identifier that
    passes the inclusion rule is listed. *)
Theorem disk_label_is_last_label :
  forall (py_repr : pyval -> string) (entry : pyval),
    (forall d : Disk,
        disk_of_entry py_repr entry = Ok (Some d) ->
        (forall (before after : list pyval) (p : pyval),
            Response.partitions_of entry = before ++ p :: after ->
            Py.truthy (Response.label_of p) = true ->
            forallb (fun q => negb (Py.truthy (Response.label_of q))) after
            = true ->
            volume_name d = Response.label_of p)
        /\ (forall (before after : list pyval) (p : pyval) (s : string),
               forallb (fun q => negb (Py.truthy (Response.label_of q)))
                       (Response.partitions_of entry) = true ->
               Response.partitions_of entry = before ++ p :: after ->
               Response.mount_of p = VStr s ->
               Py.truthy (Response.mount_of p) = true ->
               forallb (fun q => negb (Py.truthy (Response.mount_of q))) after
               = true ->
               volume_name d = VStr (Py.path_name s))
        /\ (forallb (fun q => negb (Py.truthy (Response.label_of q)))
                    (Response.partitions_of entry) = true ->
            forallb (fun q => negb (Py.truthy (Response.mount_of q)))
                    (Response.partitions_of entry) = true ->
            volume_name d = VStr ""))
    /\ (Response.well_formed_entry entry = true ->
        Response.resolvable entry = true ->
        Response.included entry = true ->
        exists d : Disk, disk_of_entry py_repr entry = Ok (Some d)).
Proof.
  intros py_repr entry. split.
  - intros d H. apply disk_of_entry_sound in H as [_ H].
    destruct (Response.resolvable entry && Response.included entry);
      [|discriminate H].
    injection H as ->. cbn [disk_for volume_name].
    unfold Response.last_label_rule, Response.labels, Response.mounts.
    split; [|split].
    + intros before after p Hparts Hp Hafter.
      rewrite Hparts, (last_truthy_split _ _ _ _ Hp Hafter). reflexivity.
    + intros before after p s Hnone Hparts Hs Hp Hafter.
      rewrite (last_truthy_absent _ _ Hnone).
      rewrite Hparts, (last_truthy_split _ _ _ _ Hp Hafter), Hs.
      reflexivity.
    + intros Hnone Hunmounted.
      rewrite (last_truthy_absent _ _ Hnone).
      rewrite (last_truthy_absent _ _ Hunmounted). reflexivity.
  - intros Hwf Hid Hinc. exists (disk_for py_repr entry).
    rewrite disk_of_entry_well_formed by exact Hwf.
    rewrite Hid, Hinc. reflexivity.
Qed.

Lemma disk_label_is_last_label_witness :
  (exists d : Disk,
      disk_of_entry Sample.repr Sample.sd_card = Ok (Some d)
      /\ volume_name d = VStr "rootfs")
  /\ volume_name (disk_for Sample.repr Sample.mounted_card) = VStr "NO NAME"
  /\ volume_name (disk_for Sample.repr Sample.blank_card) = VStr "".
Proof.
  split; [|split].
  - destruct (proj2 (disk_label_is_last_label Sample.repr Sample.sd_card)
                eq_refl eq_refl eq_refl) as [d Hd].
    exists d. split; [exact Hd|].
    apply (proj1 (proj1 (disk_label_is_last_label Sample.repr Sample.sd_card)
                    d Hd)
             [VDict [("DeviceIdentifier", VStr "disk4s1");
                     ("Content", VStr "Windows_FAT_32");
                     ("VolumeName", VStr "bootfs");
                     ("MountPoint", VStr "/Volumes/bootfs")]]
             []
             (VDict [("DeviceIdentifier", VStr "disk4s2");
                     ("Content", VStr "Linux");
                     ("VolumeName", VStr "rootfs")]));
      reflexivity.
  - apply (proj1 (proj2 (proj1 (disk_label_is_last_label
                                  Sample.repr Sample.mounted_card)
                           (disk_for Sample.repr Sample.mounted_card)
                           eq_refl))
             [] []
             (VDict [("DeviceIdentifier", VStr "disk6s1");
                     ("MountPoint", VStr "/Volumes/NO NAME")])
             "/Volumes/NO NAME");
      reflexivity.
  - apply (proj2 (proj2 (proj1 (disk_label_is_last_label
                                  Sample.repr Sample.blank_card)
                           (disk_for Sample.repr Sample.blank_card)
                           eq_refl)));
      reflexivity.
Defined.

(** C5. When the response of the device-info query carries an empty volume
    name, or none, [get_disk_info] returns a disk labelled "Untitled";
    [list_external_disks] lists an entry none of whose partitions has a
    label or a mount point with the empty string as its label.  The two
    labels differ. *)
Theorem untitled_asymmetry :
  forall (os : command -> completed) (plist_loads : string -> option pyval)
         (py_repr : pyval -> string),
    (forall (device : string) (doc : pyval) (t : list command),
        returncode (os (info_command device)) = 0%Z ->
        plist_loads (stdout (os (info_command device))) = Some doc ->
        Response.is_dict doc = true ->
        Py.truthy (Response.field doc "VolumeName" (VStr "")) = false ->
        exists d : Disk,
          snd (get_disk_info os plist_loads py_repr device t) = Ok d
          /\ volume_name d = VStr "Untitled")
    /\ (forall (doc : pyval) (t : list command) (e : pyval),
           returncode (os list_command) = 0%Z ->
           plist_loads (stdout (os list_command)) = Some doc ->
           Response.well_formed_listing doc = true ->
           In e (Response.listed (Response.entries_of doc)) ->
           forallb (fun q => negb (Py.truthy (Response.label_of q)))
                   (Response.partitions_of e) = true ->
           forallb (fun q => negb (Py.truthy (Response.mount_of q)))
                   (Response.partitions_of e) = true ->
           exists (ds : list Disk) (d : Disk),
             snd (list_external_disks os plist_loads py_repr t) = Ok ds
             /\ In d ds
             /\ device_path d =
                ("/dev/" ++ format py_repr (Response.identifier e))%string
             /\ volume_name d = VStr ""
             /\ volume_name d <> VStr "Untitled").
Proof.
  intros os plist_loads py_repr. split.
  - intros device doc t Hcode Hdoc Hdict Hname.
    rewrite get_disk_info_run, Hcode, Hdoc. cbn [Z.eqb snd].
    rewrite !(get_dict doc) by exact Hdict. cbn [rbind].
    eexists. split; [reflexivity|]. cbn [volume_name].
    unfold Py.or_else. rewrite Hname. reflexivity.
  - intros doc t e Hcode Hdoc Hwf Hin Hlabels Hmounts.
    rewrite (list_external_disks_well_formed os plist_loads py_repr
               doc t Hcode Hdoc Hwf).
    exists (map (disk_for py_repr)
                (Response.listed (Response.entries_of doc))).
    exists (disk_for py_repr e).
    assert (Hlabel : volume_name (disk_for py_repr e) = VStr "").
    { cbn [disk_for volume_name].
      unfold Response.last_label_rule, Response.labels, Response.mounts.
      rewrite (last_truthy_absent _ _ Hlabels).
      rewrite (last_truthy_absent _ _ Hmounts). reflexivity. }
    split; [reflexivity|]. split; [apply in_map; exact Hin|].
    split; [reflexivity|]. split; [exact Hlabel|].
    rewrite Hlabel. discriminate.
Qed.

Lemma untitled_asymmetry_witness :
  (exists d : Disk,
      snd (get_disk_info (Sample.host 0 "plist")
             (Sample.reads Sample.unnamed_info) Sample.repr
             "/dev/disk4" []) = Ok d
      /\ volume_name d = VStr "Untitled")
  /\ (exists (ds : list Disk) (d : Disk),
         snd (list_external_disks (Sample.host 0 "plist")
                (Sample.reads (Sample.listing [Sample.blank_card]))
                Sample.repr []) = Ok ds
         /\ In d ds
         /\ device_path d = "/dev/disk5"
         /\ volume_name d = VStr ""
         /\ volume_name d <> VStr "Untitled").
Proof.
  split.
  - apply (proj1 (untitled_asymmetry (Sample.host 0 "plist")
                    (Sample.reads Sample.unnamed_info) Sample.repr)
             "/dev/disk4" Sample.unnamed_info []); reflexivity.
  - apply (proj2 (untitled_asymmetry (Sample.host 0 "plist")
                    (Sample.reads (Sample.listing [Sample.blank_card]))
                    Sample.repr)
             (Sample.listing [Sample.blank_card]) [] Sample.blank_card);
      try reflexivity.
    left. reflexivity.
Defined.

(** C4.  What the two queries do when the query fails: the exception of
    [subprocess.run] or of [plistlib.loads] leaves the function as it is.
    No result is returned, and the exception is no [DiskDetectorError]. *)
Theorem detector_failure_is_not_wrapped :
  forall (os : command -> completed) (plist_loads : string -> option pyval)
         (py_repr : pyval -> string) (device : string) (t : list command),
    (returncode (os list_command) <> 0%Z ->
     snd (list_external_disks os plist_loads py_repr t) =
     Raise (Lib (CalledProcessError list_command
                   (returncode (os list_command)))))
    /\ (returncode (os list_command) = 0%Z ->
        plist_loads (stdout (os list_command)) = None ->
        snd (list_external_disks os plist_loads py_repr t) =
        Raise (Lib InvalidPlist))
    /\ (returncode (os (info_command device)) <> 0%Z ->
        snd (get_disk_info os plist_loads py_repr device t) =
        Raise (Lib (CalledProcessError (info_command device)
                      (returncode (os (info_command device))))))
    /\ (returncode (os (info_command device)) = 0%Z ->
        plist_loads (stdout (os (info_command device))) = None ->
        snd (get_disk_info os plist_loads py_repr device t) =
        Raise (Lib InvalidPlist)).
Proof.
  intros os plist_loads py_repr device t. split; [|split; [|split]].
  - intros Hcode. rewrite list_external_disks_run. cbn [snd].
    apply Z.eqb_neq in Hcode. rewrite Hcode. reflexivity.
  - intros Hcode Hdoc. rewrite list_external_disks_run, Hcode, Hdoc.
    reflexivity.
  - intros Hcode. rewrite get_disk_info_run. cbn [snd].
    apply Z.eqb_neq in Hcode. rewrite Hcode. reflexivity.
  - intros Hcode Hdoc. rewrite get_disk_info_run, Hcode, Hdoc.
    reflexivity.
Qed.

Lemma detector_failure_is_not_wrapped_witness :
  snd (list_external_disks (Sample.host 1 "") Sample.unreadable
                           Sample.repr []) =
  Raise (Lib (CalledProcessError list_command 1))
  /\ snd (list_external_disks (Sample.host 0 "<plist") Sample.unreadable
                              Sample.repr []) =
     Raise (Lib InvalidPlist)
  /\ snd (get_disk_info (Sample.host 1 "") Sample.unreadable
                        Sample.repr "/dev/disk9" []) =
     Raise (Lib (CalledProcessError (info_command "/dev/disk9") 1))
  /\ snd (get_disk_info (Sample.host 0 "<plist") Sample.unreadable
                        Sample.repr "/dev/disk9" []) =
     Raise (Lib InvalidPlist).
Proof.
  split; [|split; [|split]].
  - apply (proj1 (detector_failure_is_not_wrapped
                    (Sample.host 1 "") Sample.unreadable Sample.repr
                    "/dev/disk9" [])).
    simpl. lia.
  - apply (proj1 (proj2 (detector_failure_is_not_wrapped
                    (Sample.host 0 "<plist") Sample.unreadable Sample.repr
                    "/dev/disk9" []))); reflexivity.
  - apply (proj1 (proj2 (proj2 (detector_failure_is_not_wrapped
                    (Sample.host 1 "") Sample.unreadable Sample.repr
                    "/dev/disk9" [])))).
    simpl. lia.
  - apply (proj2 (proj2 (proj2 (detector_failure_is_not_wrapped
                    (Sample.host 0 "<plist") Sample.unreadable Sample.repr
                    "/dev/disk9" [])))); reflexivity.
Defined.

(** ** cloud_init.py *)

Lemma find_app {A : Type} (f : A -> bool) (l1 l2 : list A) :
  find f (l1 ++ l2) =
  match find f l1 with
  | Some x => Some x
  | None => find f l2
  end.
Proof.
  induction l1 as [|x l1 IH]; cbn; [reflexivity|].
  destruct (f x); [reflexivity | exact IH].
Qed.

Section Locator.

Variable os : command -> completed.
Variable plist_loads : string -> option pyval.
Variable py_repr : pyval -> string.

(** The inner loop stops at the first FAT partition. *)
Lemma boot_in_partitions_first (partitions : list pyval) :
  forallb Response.is_dict partitions = true ->
  boot_in_partitions py_repr partitions =
  Ok (option_map (partition_path py_repr)
                 (find Response.is_fat partitions)).
Proof.
  induction partitions as [|p rest IH]; intros Hwf.
  - reflexivity.
  - cbn [forallb] in Hwf. apply andb_true_iff in Hwf as [Hp Hrest].
    cbn [boot_in_partitions find].
    rewrite (get_dict _ _ _ Hp). cbn [rbind].
    fold (Response.is_fat p).
    destruct (Response.is_fat p).
    + rewrite (get_dict _ _ _ Hp). reflexivity.
    + apply IH, Hrest.
Qed.

Lemma boot_in_disks_first (entries : list pyval) :
  forallb Response.well_formed_table_entry entries = true ->
  boot_in_disks py_repr entries =
  Ok (option_map (partition_path py_repr)
                 (find Response.is_fat
                       (flat_map Response.partitions_of entries))).
Proof.
  induction entries as [|e rest IH]; intros Hwf.
  - reflexivity.
  - cbn [forallb] in Hwf. apply andb_true_iff in Hwf as [He Hrest].
    unfold Response.well_formed_table_entry in He.
    apply andb_true_iff in He as [He Hparts].
    cbn [boot_in_disks flat_map]. rewrite find_app.
    rewrite (get_dict _ _ _ He). cbn [rbind].
    unfold Response.partitions_of at 1.
    destruct (Response.field e "Partitions" (VList []))
      as [| | | | | | |partitions|]; try discriminate Hparts.
    cbn [Py.iter rbind].
    rewrite boot_in_partitions_first by exact Hparts. cbn [rbind].
    destruct (find Response.is_fat partitions); [reflexivity|].
    apply IH, Hrest.
Qed.

(** One run of [get_boot_partition]. *)
Lemma get_boot_partition_run (device : string) (t : list command) :
  let cmd := partition_command device in
  get_boot_partition os plist_loads py_repr device t =
  (t ++ [cmd],
   if Z.eqb (returncode (os cmd)) 0 then
     match plist_loads (stdout (os cmd)) with
     | Some doc =>
         all <-r Py.get doc "AllDisksAndPartitions" (VList []) ;;
         entries <-r Py.iter all ;;
         boot_in_disks py_repr entries
     | None => Raise (Lib InvalidPlist)
     end
   else Ok None).
Proof.
  intros cmd.
  unfold get_boot_partition, query_partitions, try_except, bind,
    subprocess_run_check, ret, lift, loads.
  fold cmd.
  destruct (Z.eqb (returncode (os cmd)) 0); [|reflexivity].
  destruct (plist_loads (stdout (os cmd))); reflexivity.
Qed.

Lemma get_boot_partition_well_formed
      (device : string) (doc : pyval) (t : list command) :
  returncode (os (partition_command device)) = 0%Z ->
  plist_loads (stdout (os (partition_command device))) = Some doc ->
  Response.well_formed_table doc = true ->
  get_boot_partition os plist_loads py_repr device t =
  (t ++ [partition_command device],
   Ok (option_map (partition_path py_repr)
                  (find Response.is_fat (Response.table doc)))).
Proof.
  intros Hcode Hdoc Hwf.
  rewrite get_boot_partition_run, Hcode, Hdoc. cbn [Z.eqb].
  unfold Response.well_formed_table in Hwf.
  apply andb_true_iff in Hwf as [Hdict Hentries].
  rewrite (get_dict _ _ _ Hdict). cbn [rbind].
  unfold Response.table, Response.entries_of.
  destruct (Response.field doc "AllDisksAndPartitions" (VList []))
    as [| | | | | | |entries|]; try discriminate Hentries.
  cbn [Py.iter rbind].
  rewrite boot_in_disks_first by exact Hentries. reflexivity.
Qed.

(** Whatever the partitions, a result of the inner loop is the path of the
    first FAT partition, if any. *)
Lemma boot_in_partitions_sound (partitions : list pyval)
      (found : option string) :
  boot_in_partitions py_repr partitions = Ok found ->
  found = option_map (partition_path py_repr)
                     (find Response.is_fat partitions)
  /\ match partitions with
     | [] => True
     | p :: _ => Response.is_dict p = true
     end.
Proof.
  revert found. induction partitions as [|p rest IH]; intros found H.
  - cbn in H. injection H as <-. split; [reflexivity | exact I].
  - cbn [boot_in_partitions] in H.
    destruct (Py.get p "Content" (VStr "")) as [content|] eqn:Hc;
      [|discriminate H].
    apply get_ok in Hc as [Hp ->]. cbn [rbind] in H.
    fold (Response.is_fat p) in H. cbn [find].
    split; [|exact Hp].
    destruct (Response.is_fat p).
    + rewrite (get_dict _ _ _ Hp) in H. cbn [rbind] in H.
      injection H as <-. reflexivity.
    + apply IH in H as [H _]. exact H.
Qed.

Lemma boot_in_disks_sound (entries : list pyval) (found : option string) :
  boot_in_disks py_repr entries = Ok found ->
  found = option_map (partition_path py_repr)
                     (find Response.is_fat
                           (flat_map Response.partitions_of entries))
  /\ match entries with
     | [] => True
     | e :: _ => Response.is_dict e = true
     end.
Proof.
  revert found. induction entries as [|e rest IH]; intros found H.
  - cbn in H. injection H as <-. split; [reflexivity | exact I].
  - cbn [boot_in_disks] in H.
    destruct (Py.get e "Partitions" (VList [])) as [partitions|] eqn:Hp;
      [|discriminate H].
    apply get_ok in Hp as [He ->]. cbn [rbind] in H.
    split; [|exact He].
    destruct (Py.iter (Response.field e "Partitions" (VList [])))
      as [items|] eqn:Hit; [|discriminate H].
    cbn [rbind] in H.
    destruct (boot_in_partitions py_repr items) as [inner|] eqn:Hin;
      [|discriminate H].
    cbn [rbind] in H. apply boot_in_partitions_sound in Hin as [-> Hhead].
    assert (Hitems : items = Response.partitions_of e).
    { unfold Response.partitions_of. destruct items as [|x items].
      - destruct (Response.field e "Partitions" (VList []));
          cbn in Hit; try discriminate Hit; try reflexivity.
        injection Hit as ->. reflexivity.
      - rewrite (iter_head_dict _ _ _ Hit Hhead). reflexivity. }
    cbn [flat_map]. rewrite find_app, <- Hitems.
    destruct (find Response.is_fat items).
    + cbn [option_map] in H. injection H as <-. reflexivity.
    + cbn [option_map] in H. apply IH in H as [H _]. exact H.
Qed.

(** Whatever the parsed response, a result of [get_boot_partition] is the
    path of the first FAT partition of the table, if any. *)
Lemma get_boot_partition_sound
      (device : string) (doc : pyval) (t : list command)
      (found : option string) :
  returncode (os (partition_command device)) = 0%Z ->
  plist_loads (stdout (os (partition_command device))) = Some doc ->
  snd (get_boot_partition os plist_loads py_repr device t) = Ok found ->
  found = option_map (partition_path py_repr)
                     (find Response.is_fat (Response.table doc)).
Proof.
  intros Hcode Hdoc. rewrite get_boot_partition_run, Hcode, Hdoc.
  cbn [Z.eqb snd]. intros H.
  destruct (Py.get doc "AllDisksAndPartitions" (VList [])) as [all|] eqn:Hall;
    [|discriminate H].
  apply get_ok in Hall as [Hdict ->]. cbn [rbind] in H.
  destruct (Py.iter (Response.field doc "AllDisksAndPartitions" (VList [])))
    as [entries|] eqn:Hit; [|discriminate H].
  cbn [rbind] in H. apply boot_in_disks_sound in H as [-> Hhead].
  unfold Response.table, Response.entries_of.
  destruct entries as [|x entries].
  - destruct (Response.field doc "AllDisksAndPartitions" (VList []));
      cbn in Hit; try discriminate Hit; try reflexivity.
    injection Hit as ->. reflexivity.
  - rewrite (iter_head_dict _ _ _ Hit Hhead). reflexivity.
Qed.

End Locator.

Lemma find_first {A : Type} (f : A -> bool) (before after : list A) (x : A) :
  forallb (fun y => negb (f y)) before = true ->
  f x = true ->
  find f (before ++ x :: after) = Some x.
Proof.
  induction before as [|y before IH]; cbn; intros Hb Hx.
  - rewrite Hx. reflexivity.
  - apply andb_true_iff in Hb as [Hy Hb].
    apply negb_true_iff in Hy. rewrite Hy. apply IH; assumption.
Qed.

Lemma find_none {A : Type} (f : A -> bool) (l : list A) :
  forallb (fun y => negb (f y)) l = true -> find f l = None.
Proof.
  induction l as [|y l IH]; cbn; intros H; [reflexivity|].
  apply andb_true_iff in H as [Hy Hl].
  apply negb_true_iff in Hy. rewrite Hy. apply IH, Hl.
Qed.

(** C7. When the partition-table query exits with a non-zero status,
    [get_boot_partition] returns [None] and raises nothing.  Whatever the
    parsed response, a result it returns is the device path of the first
    partition, in table order, whose content tag is one of "DOS", "FAT32",
    "msdos", "Windows_FAT_32", and [None] when no partition has such a tag.
    On a well-formed table it returns: that path, and [None] when no
    partition has such a tag, and so when the table has no partition. *)
Theorem get_boot_partition_first_fat :
  forall (os : command -> completed) (plist_loads : string -> option pyval)
         (py_repr : pyval -> string) (device : string) (t : list command),
    (returncode (os (partition_command device)) <> 0%Z ->
     get_boot_partition os plist_loads py_repr device t =
     (t ++ [partition_command device], Ok None))
    /\ (forall (doc : pyval) (found : option string),
           returncode (os (partition_command device)) = 0%Z ->
           plist_loads (stdout (os (partition_command device))) = Some doc ->
           snd (get_boot_partition os plist_loads py_repr device t) =
           Ok found ->
           (forall (before after : list pyval) (p : pyval),
               Response.table doc = before ++ p :: after ->
               forallb (fun q => negb (Response.is_fat q)) before = true ->
               Py.in_strs (Response.field p "Content" (VStr ""))
                          ["DOS"; "FAT32"; "msdos"; "Windows_FAT_32"] = true ->
               found = Some (partition_path py_repr p))
           /\ (forallb (fun q => negb (Response.is_fat q))
                       (Response.table doc) = true ->
               found = None))
    /\ (forall doc : pyval,
           returncode (os (partition_command device)) = 0%Z ->
           plist_loads (stdout (os (partition_command device))) = Some doc ->
           Response.well_formed_table doc = true ->
           (forall (before after : list pyval) (p : pyval),
               Response.table doc = before ++ p :: after ->
               forallb (fun q => negb (Response.is_fat q)) before = true ->
               Py.in_strs (Response.field p "Content" (VStr ""))
                          ["DOS"; "FAT32"; "msdos"; "Windows_FAT_32"] = true ->
               snd (get_boot_partition os plist_loads py_repr device t) =
               Ok (Some (partition_path py_repr p)))
           /\ (forallb (fun q => negb (Response.is_fat q))
                       (Response.table doc) = true ->
               snd (get_boot_partition os plist_loads py_repr device t) =
               Ok None)
           /\ (Response.table doc = [] ->
               snd (get_boot_partition os plist_loads py_repr device t) =
               Ok None)).
Proof.
  intros os plist_loads py_repr device t. split; [|split].
  - intros Hcode. rewrite get_boot_partition_run.
    apply Z.eqb_neq in Hcode. rewrite Hcode. reflexivity.
  - intros doc found Hcode Hdoc H.
    rewrite (get_boot_partition_sound os plist_loads py_repr device doc t
               found Hcode Hdoc H).
    split.
    + intros before after p Htable Hbefore Hfat.
      rewrite Htable, (find_first _ _ _ _ Hbefore Hfat). reflexivity.
    + intros Hnone. rewrite (find_none _ _ Hnone). reflexivity.
  - intros doc Hcode Hdoc Hwf.
    rewrite (get_boot_partition_well_formed os plist_loads py_repr
               device doc t Hcode Hdoc Hwf).
    cbn [snd]. split; [|split].
    + intros before after p Htable Hbefore Hfat.
      rewrite Htable, (find_first _ _ _ _ Hbefore Hfat). reflexivity.
    + intros Hnone. rewrite (find_none _ _ Hnone). reflexivity.
    + intros Hempty. rewrite Hempty. reflexivity.
Qed.

Lemma get_boot_partition_first_fat_witness :
  get_boot_partition (Sample.host 1 "") Sample.unreadable Sample.repr
                     "/dev/disk4" [] =
  ([partition_command "/dev/disk4"], Ok None)
  /\ Some "/dev/disk4s3" =
     Some (partition_path Sample.repr
             (VDict [("Content", VStr "FAT32");
                     ("DeviceIdentifier", VStr "disk4s3")]))
  /\ snd (get_boot_partition (Sample.host 0 "plist")
            (Sample.reads (Sample.listing [Sample.sd_card])) Sample.repr
            "/dev/disk4" []) = Ok (Some "/dev/disk4s1")
  /\ snd (get_boot_partition (Sample.host 0 "plist")
            (Sample.reads (Sample.listing [Sample.blank_card])) Sample.repr
            "/dev/disk5" []) = Ok None
  /\ snd (get_boot_partition (Sample.host 0 "plist")
            (Sample.reads (Sample.listing [Sample.fixed_disk])) Sample.repr
            "/dev/disk0" []) = Ok None.
Proof.
  split; [|split; [|split; [|split]]].
  - apply (proj1 (get_boot_partition_first_fat
                    (Sample.host 1 "") Sample.unreadable Sample.repr
                    "/dev/disk4" [])).
    simpl. lia.
  - apply (proj1 (proj1 (proj2 (get_boot_partition_first_fat
                    (Sample.host 0 "plist")
                    (Sample.reads
                       (Sample.listing
                          [VDict [("Partitions",
                                   VList [VDict [("Content", VStr "Linux")];
                                          VDict [("Content", VStr "FAT32");
                                                 ("DeviceIdentifier",
                                                  VStr "disk4s3")]])]]))
                    Sample.repr "/dev/disk4" []))
                    (Sample.listing
                       [VDict [("Partitions",
                                VList [VDict [("Content", VStr "Linux")];
                                       VDict [("Content", VStr "FAT32");
                                              ("DeviceIdentifier",
                                               VStr "disk4s3")]])]])
                    (Some "/dev/disk4s3") eq_refl eq_refl eq_refl)
             [VDict [("Content", VStr "Linux")]]
             []
             (VDict [("Content", VStr "FAT32");
                     ("DeviceIdentifier", VStr "disk4s3")]));
      reflexivity.
  - apply (proj1 (proj2 (proj2 (get_boot_partition_first_fat
                    (Sample.host 0 "plist")
                    (Sample.reads (Sample.listing [Sample.sd_card]))
                    Sample.repr "/dev/disk4" []))
                    (Sample.listing [Sample.sd_card])
                    eq_refl eq_refl eq_refl)
             []
             [VDict [("DeviceIdentifier", VStr "disk4s2");
                     ("Content", VStr "Linux");
                     ("VolumeName", VStr "rootfs")]]
             (VDict [("DeviceIdentifier", VStr "disk4s1");
                     ("Content", VStr "Windows_FAT_32");
                     ("VolumeName", VStr "bootfs");
                     ("MountPoint", VStr "/Volumes/bootfs")]));
      reflexivity.
  - apply (proj1 (proj2 (proj2 (proj2 (get_boot_partition_first_fat
                    (Sample.host 0 "plist")
                    (Sample.reads (Sample.listing [Sample.blank_card]))
                    Sample.repr "/dev/disk5" []))
                    (Sample.listing [Sample.blank_card])
                    eq_refl eq_refl eq_refl))).
    reflexivity.
  - apply (proj2 (proj2 (proj2 (proj2 (get_boot_partition_first_fat
                    (Sample.host 0 "plist")
                    (Sample.reads (Sample.listing [Sample.fixed_disk]))
                    Sample.repr "/dev/disk0" []))
                    (Sample.listing [Sample.fixed_disk])
                    eq_refl eq_refl eq_refl))).
    reflexivity.
Defined.

(** C10. When the first FAT partition of a well-formed table reports no
    device identifier, [get_boot_partition] returns the string "/dev/None";
    there is a table on which it does so. *)
Theorem get_boot_partition_dev_None :
  (forall (os : command -> completed) (plist_loads : string -> option pyval)
          (py_repr : pyval -> string) (device : string) (t : list command)
          (doc : pyval) (before after : list pyval)
          (bindings : list (string * pyval)),
      returncode (os (partition_command device)) = 0%Z ->
      plist_loads (stdout (os (partition_command device))) = Some doc ->
      Response.well_formed_table doc = true ->
      Response.table doc = before ++ VDict bindings :: after ->
      forallb (fun q => negb (Response.is_fat q)) before = true ->
      Response.is_fat (VDict bindings) = true ->
      Py.assoc "DeviceIdentifier" bindings = None ->
      snd (get_boot_partition os plist_loads py_repr device t) =
      Ok (Some "/dev/None"))
  /\ (exists doc : pyval,
         Response.well_formed_table doc = true
         /\ snd (get_boot_partition (Sample.host 0 "plist") (Sample.reads doc)
                   Sample.repr "/dev/disk4" []) = Ok (Some "/dev/None")).
Proof.
  split.
  - intros os plist_loads py_repr device t doc before after bindings
           Hcode Hdoc Hwf Htable Hbefore Hfat Hid.
    rewrite (get_boot_partition_well_formed os plist_loads py_repr
               device doc t Hcode Hdoc Hwf).
    rewrite Htable, (find_first _ _ _ _ Hbefore Hfat).
    cbn [snd option_map]. unfold partition_path. cbn [Response.field].
    rewrite Hid. reflexivity.
  - exists Sample.anonymous_fat. split; reflexivity.
Qed.

Lemma get_boot_partition_dev_None_witness :
  snd (get_boot_partition (Sample.host 0 "plist")
         (Sample.reads Sample.anonymous_fat) Sample.repr "/dev/disk4" []) =
  Ok (Some "/dev/None").
Proof.
  apply (proj1 get_boot_partition_dev_None
           (Sample.host 0 "plist") (Sample.reads Sample.anonymous_fat)
           Sample.repr "/dev/disk4" [] Sample.anonymous_fat
           [VDict [("Content", VStr "Linux");
                   ("DeviceIdentifier", VStr "disk4s1")]]
           [VDict [("Content", VStr "FAT32");
                   ("DeviceIdentifier", VStr "disk4s3")]]
           [("Content", VStr "DOS")]);
    reflexivity.
Defined.

(** C8. [load_cloud_config] raises [CloudInitError] when the source does not
    exist, with the message "Config file not found: " followed by the path;
    when the parser rejects the document, with the message "Invalid YAML: "
    followed by the parser's diagnostic; and when the document parses to a
    value that is no mapping.  The first two messages differ.  For a
    document that parses to a mapping it returns the mapping as
    [yaml.dump] writes it. *)
Theorem load_cloud_config_cases :
  forall (open_file : string -> opened)
         (yaml_safe_load : string -> string + yaml)
         (yaml_dump : yaml -> string) (config_path : string),
    (open_file config_path = NoSuchFile ->
     load_cloud_config open_file yaml_safe_load yaml_dump config_path =
     Raise (CloudInitError
              (Message ("Config file not found: " ++ config_path)%string
                       None)))
    /\ (forall contents diagnostic : string,
           open_file config_path = Text contents ->
           yaml_safe_load contents = inl diagnostic ->
           load_cloud_config open_file yaml_safe_load yaml_dump config_path =
           Raise (CloudInitError
                    (Message "Invalid YAML: " (Some (YAMLError diagnostic))))
           /\ Message "Invalid YAML: " (Some (YAMLError diagnostic)) <>
              Message ("Config file not found: " ++ config_path)%string None)
    /\ (forall (contents : string) (config : yaml),
           open_file config_path = Text contents ->
           yaml_safe_load contents = inr config ->
           isinstance_dict config = false ->
           load_cloud_config open_file yaml_safe_load yaml_dump config_path =
           Raise (CloudInitError
                    (Message "Cloud config must be a YAML dictionary" None)))
    /\ (forall (contents : string) (bindings : list (yaml * yaml)),
           open_file config_path = Text contents ->
           yaml_safe_load contents = inr (YDict bindings) ->
           load_cloud_config open_file yaml_safe_load yaml_dump config_path =
           Ok (yaml_dump (YDict bindings))).
Proof.
  intros open_file yaml_safe_load yaml_dump config_path.
  unfold load_cloud_config, read_config.
  split; [|split; [|split]].
  - intros Hopen. rewrite Hopen. reflexivity.
  - intros contents diagnostic Hopen Hload. rewrite Hopen, Hload.
    split; [reflexivity | discriminate].
  - intros contents config Hopen Hload Hshape.
    rewrite Hopen, Hload. cbn [rbind]. rewrite Hshape. reflexivity.
  - intros contents bindings Hopen Hload. rewrite Hopen, Hload. reflexivity.
Qed.

Lemma load_cloud_config_cases_witness :
  load_cloud_config Sample.config_files Sample.safe_load Sample.dump
                    "missing.yaml" =
  Raise (CloudInitError (Message "Config file not found: missing.yaml" None))
  /\ load_cloud_config Sample.config_files Sample.safe_load Sample.dump
                       "broken.yaml" =
     Raise (CloudInitError
              (Message "Invalid YAML: "
                       (Some (YAMLError "while parsing a flow sequence"))))
  /\ load_cloud_config Sample.config_files Sample.safe_load Sample.dump
                       "list.yaml" =
     Raise (CloudInitError
              (Message "Cloud config must be a YAML dictionary" None))
  /\ load_cloud_config Sample.config_files Sample.safe_load Sample.dump
                       "user-data.yaml" =
     Ok (Sample.dump (YDict [(YStr "hostname", YStr "pi")])).
Proof.
  split; [|split; [|split]].
  - apply (proj1 (load_cloud_config_cases Sample.config_files
                    Sample.safe_load Sample.dump "missing.yaml")).
    reflexivity.
  - apply (proj1 (proj2 (load_cloud_config_cases Sample.config_files
                    Sample.safe_load Sample.dump "broken.yaml"))
             "a: [1" "while parsing a flow sequence"); reflexivity.
  - apply (proj1 (proj2 (proj2 (load_cloud_config_cases Sample.config_files
                    Sample.safe_load Sample.dump "list.yaml")))
             "- a" (YList [YStr "a"])); reflexivity.
  - apply (proj2 (proj2 (proj2 (load_cloud_config_cases Sample.config_files
                    Sample.safe_load Sample.dump "user-data.yaml")))
             "hostname: pi" [(YStr "hostname", YStr "pi")]); reflexivity.
Defined.

(** * Further properties *)

(** ** disk_writer.py *)

Lemma prefix_split (w s : string) :
  String.prefix w s = true -> exists rest, s = (w ++ rest)%string.
Proof.
  revert s. induction w as [|a w IH]; intros s H.
  - exists s. reflexivity.
  - destruct s as [|c s]; [discriminate H|].
    cbn in H. destruct (ascii_dec a c) as [->|]; [|discriminate H].
    destruct (IH s H) as [rest ->]. exists rest. reflexivity.
Qed.

Lemma replace_from_copy (old new : string) (c : ascii) (s : string) :
  String.prefix old (String c s) = false ->
  PyStr.replace_from old new 0 (String c s) =
  String c (PyStr.replace_from old new 0 s).
Proof. intros H. cbn [PyStr.replace_from]. rewrite H. reflexivity. Qed.

(** A prefix that the replacement text cannot begin is not created by the
    scan: when the result begins with it, so did the input. *)
Lemma replace_from_prefix_step (c0 : ascii) (old0 new w : string) (a : ascii) :
  (forall u, String.prefix w (PyStr.replace_from (String c0 old0) new 0 u)
             = true ->
             String.prefix w u = true) ->
  (forall x, String.prefix (String a w) (new ++ x) = false) ->
  forall u,
    String.prefix (String a w) (PyStr.replace_from (String c0 old0) new 0 u)
    = true ->
    String.prefix (String a w) u = true.
Proof.
  intros IH Hnew u H. destruct u as [|c u]; [discriminate H|].
  destruct (String.prefix (String c0 old0) (String c u)) eqn:E.
  - destruct (prefix_split _ _ E) as [rest Hrest]. rewrite Hrest in H.
    rewrite replace_from_occurrence, Hnew in H. discriminate H.
  - rewrite (replace_from_copy _ _ _ _ E) in H.
    cbn [String.prefix] in H |- *.
    destruct (ascii_dec a c); [|discriminate H].
    apply IH, H.
Qed.

Lemma raw_scan_keeps_prefix (u : string) :
  String.prefix "dev/disk"
                (PyStr.replace_from "/dev/disk" "/dev/rdisk" 0 u) = true ->
  String.prefix "dev/disk" u = true.
Proof.
  revert u.
  repeat (apply replace_from_prefix_step; [|intros x; reflexivity]).
  intros u _. destruct u; reflexivity.
Qed.

Lemma contains_after_marker (x : string) :
  PyStr.contains "/dev/disk" ("/dev/rdisk" ++ x) =
  PyStr.contains "/dev/disk" x.
Proof. reflexivity. Qed.

(** The scan leaves no occurrence of the text it replaces. *)
Lemma raw_scan_complete (n : nat) :
  forall s : string,
    String.length s <= n ->
    PyStr.contains "/dev/disk"
                   (PyStr.replace_from "/dev/disk" "/dev/rdisk" 0 s) = false.
Proof.
  induction n as [|n IH]; intros s Hlen.
  - destruct s; [reflexivity | cbn in Hlen; lia].
  - destruct s as [|c s]; [reflexivity|].
    destruct (String.prefix "/dev/disk" (String c s)) eqn:E.
    + destruct (prefix_split _ _ E) as [rest Hrest]. rewrite Hrest.
      rewrite replace_from_occurrence, contains_after_marker.
      apply IH. rewrite Hrest in Hlen. cbn in Hlen. lia.
    + rewrite (replace_from_copy _ _ _ _ E).
      cbn [PyStr.contains]. rewrite IH by (cbn in Hlen; lia).
      rewrite orb_false_r.
      destruct (String.prefix "/dev/disk"
                  (String c (PyStr.replace_from "/dev/disk" "/dev/rdisk" 0 s)))
        eqn:F; [|reflexivity].
      cbn [String.prefix] in F, E.
      destruct (ascii_dec "/" c); [|discriminate F].
      apply raw_scan_keeps_prefix in F. cbn [String.prefix] in F.
      rewrite F in E. discriminate E.
Qed.

(** X1. Translating a translated path changes nothing: [get_raw_device] is
    idempotent on every path, and the translation of a path that does not
    start with "/dev/r" holds no occurrence of "/dev/disk". *)
Theorem get_raw_device_idempotent :
  forall device_path : string,
    get_raw_device (get_raw_device device_path) = get_raw_device device_path
    /\ (PyStr.startswith "/dev/r" device_path = false ->
        PyStr.contains "/dev/disk" (get_raw_device device_path) = false).
Proof.
  intros device_path.
  assert (Hscan : PyStr.contains "/dev/disk"
                    (PyStr.replace "/dev/disk" "/dev/rdisk" device_path)
                  = false)
    by (apply (raw_scan_complete (String.length device_path)); lia).
  split.
  - unfold get_raw_device at 2 3.
    destruct (PyStr.startswith "/dev/r" device_path) eqn:E.
    + unfold get_raw_device. rewrite E. reflexivity.
    + unfold get_raw_device.
      destruct (PyStr.startswith "/dev/r"
                  (PyStr.replace "/dev/disk" "/dev/rdisk" device_path));
        [reflexivity|].
      unfold PyStr.replace at 1. apply replace_from_absent, Hscan.
  - intros E. unfold get_raw_device. rewrite E. exact Hscan.
Qed.

Lemma get_raw_device_idempotent_witness :
  PyStr.contains "/dev/disk" (get_raw_device "/Volumes/dev/disk2") = false.
Proof.
  apply (proj2 (get_raw_device_idempotent "/Volumes/dev/disk2")).
  reflexivity.
Defined.

(** X2. [burn_image] returns normally exactly when the image exists and the
    copy command exits with status zero; in every other case the exception
    it raises is a [DiskWriterError], and it starts at most one command. *)
Theorem burn_image_outcomes :
  forall (os : command -> completed) (path_exists : string -> bool)
         (image_path device_path : string) (progress : bool)
         (t : list command),
    let cmd :=
      dd_command image_path (get_raw_device device_path) progress in
    let run := burn_image os path_exists image_path device_path progress t in
    (snd run = Ok tt <->
     path_exists image_path = true /\ returncode (os cmd) = 0%Z)
    /\ (snd run = Ok tt \/ exists m, snd run = Raise (DiskWriterError m))
    /\ (fst run = t \/ fst run = t ++ [cmd]).
Proof.
  intros os path_exists image_path device_path progress t cmd run.
  subst run. destruct (path_exists image_path) eqn:Hex.
  - rewrite (burn_image_run os path_exists image_path device_path progress t
               Hex).
    fold cmd. cbn [fst snd].
    destruct (Z.eqb (returncode (os cmd)) 0) eqn:Hcode.
    + apply Z.eqb_eq in Hcode. repeat split; auto.
    + apply Z.eqb_neq in Hcode. split; [|split].
      * split; [discriminate | intros [_ H]; contradiction].
      * right. eexists. reflexivity.
      * right. reflexivity.
  - unfold burn_image. rewrite Hex. cbn [negb raise fst snd].
    split; [|split].
    + split; [discriminate | intros [H _]; discriminate H].
    + right. eexists. reflexivity.
    + left. reflexivity.
Qed.

(** ** disk_detector.py *)

(** X3. The three queries are read-only in every outcome: whether they
    return or raise, [list_external_disks], [get_disk_info] and
    [get_boot_partition] have started exactly one command, the listing or
    info query of [diskutil]. *)
Theorem queries_start_one_command :
  forall (os : command -> completed) (plist_loads : string -> option pyval)
         (py_repr : pyval -> string) (device : string) (t : list command),
    fst (list_external_disks os plist_loads py_repr t) = t ++ [list_command]
    /\ fst (get_disk_info os plist_loads py_repr device t) =
       t ++ [["diskutil"; "info"; "-plist"; device]]
    /\ fst (get_boot_partition os plist_loads py_repr device t) =
       t ++ [["diskutil"; "list"; "-plist"; device]].
Proof.
  intros os plist_loads py_repr device t.
  rewrite list_external_disks_run, get_disk_info_run, get_boot_partition_run.
  repeat split.
Qed.

Lemma or_else_truthy (a b : pyval) :
  Py.truthy b = true -> Py.truthy (Py.or_else a b) = true.
Proof.
  intros Hb. unfold Py.or_else.
  destruct (Py.truthy a) eqn:Ha; [exact Ha | exact Hb].
Qed.

Lemma mounted_has_partition (entry : pyval) :
  Response.has_mounted_partition entry = true ->
  Response.has_partition entry = true.
Proof.
  unfold Response.has_mounted_partition, Response.has_partition.
  destruct (Response.partitions_of entry); [discriminate | reflexivity].
Qed.

(** X4. Every disk that [list_external_disks] returns, whatever the
    response, comes from an entry with a non-empty identifier: its device
    path is "/dev/" followed by the identifier, its file system tag is not
    empty, and it is removable, or ejectable, or has a partition. *)
Theorem listed_disk_invariants :
  forall (os : command -> completed) (plist_loads : string -> option pyval)
         (py_repr : pyval -> string) (t : list command)
         (result : list Disk) (d : Disk),
    snd (list_external_disks os plist_loads py_repr t) = Ok result ->
    In d result ->
    exists doc entry : pyval,
      plist_loads (stdout (os list_command)) = Some doc
      /\ In entry (Response.entries_of doc)
      /\ Py.truthy (Response.identifier entry) = true
      /\ device_path d =
         ("/dev/" ++ format py_repr (Response.identifier entry))%string
      /\ (forall s : string,
             Response.identifier entry = VStr s ->
             s <> "" /\ device_path d = ("/dev/" ++ s)%string)
      /\ Py.truthy (file_system d) = true
      /\ (Py.truthy (is_removable d) = true
          \/ Py.truthy (is_ejectable d) = true
          \/ Response.has_partition entry = true).
Proof.
  intros os plist_loads py_repr t result d Hrun Hin.
  destruct (list_external_disks_sound os plist_loads py_repr t result Hrun)
    as [_ [doc [Hdoc [_ ->]]]].
  apply in_map_iff in Hin as [entry [<- Hlisted]].
  unfold Response.listed in Hlisted. apply filter_In in Hlisted as [He Hsel].
  apply andb_true_iff in Hsel as [Hid Hinc].
  exists doc, entry.
  split; [exact Hdoc|]. split; [exact He|]. split; [exact Hid|].
  split; [reflexivity|]. split; [|split].
  - intros s Hs. cbn [disk_for device_path]. rewrite Hs. cbn [format].
    split; [|reflexivity].
    unfold Response.resolvable in Hid. rewrite Hs in Hid. cbn in Hid.
    intros ->. discriminate Hid.
  - cbn [disk_for file_system]. apply or_else_truthy. reflexivity.
  - cbn [disk_for is_removable is_ejectable].
    unfold Response.included in Hinc.
    apply orb_true_iff in Hinc as [Hinc|Hpart]; [|auto].
    apply orb_true_iff in Hinc as [Hinc|Hmounted];
      [|right; right; apply mounted_has_partition, Hmounted].
    apply orb_true_iff in Hinc as [Hrem|Hej]; auto.
Qed.

Lemma listed_disk_invariants_witness :
  exists doc entry : pyval,
    Sample.reads (Sample.listing [Sample.fixed_disk; Sample.blank_card])
                 (stdout (Sample.host 0 "plist" list_command)) = Some doc
    /\ In entry (Response.entries_of doc)
    /\ device_path (disk_for Sample.repr Sample.blank_card) =
       ("/dev/" ++ format Sample.repr (Response.identifier entry))%string.
Proof.
  destruct (listed_disk_invariants
              (Sample.host 0 "plist")
              (Sample.reads
                 (Sample.listing [Sample.fixed_disk; Sample.blank_card]))
              Sample.repr []
              [disk_for Sample.repr Sample.blank_card]
              (disk_for Sample.repr Sample.blank_card)
              eq_refl (or_introl eq_refl))
    as [doc [entry [Hdoc [He [_ [Hpath _]]]]]].
  exists doc, entry. split; [exact Hdoc|]. split; [exact He | exact Hpath].
Defined.

(** Whatever the response, a disk that [get_disk_info] returns is read off
    the fields of the parsed response. *)
Lemma get_disk_info_sound
      (os : command -> completed) (plist_loads : string -> option pyval)
      (py_repr : pyval -> string) (device : string) (t : list command)
      (d : Disk) :
  snd (get_disk_info os plist_loads py_repr device t) = Ok d ->
  returncode (os (info_command device)) = 0%Z
  /\ exists doc : pyval,
      plist_loads (stdout (os (info_command device))) = Some doc
      /\ Response.is_dict doc = true
      /\ d = mkDisk
               ("/dev/" ++ format py_repr
                  (Response.field doc "DeviceIdentifier" (VStr "")))%string
               (Py.or_else (Response.field doc "VolumeName" (VStr ""))
                           (VStr "Untitled"))
               (Response.field doc "Size" (VInt 0))
               (Py.or_else (Response.field doc "Content" (VStr ""))
                           (VStr "Unknown"))
               (Response.field doc "Removable" (VBool false))
               (Response.field doc "Ejectable" (VBool false)).
Proof.
  rewrite get_disk_info_run. cbn [snd]. intros H.
  destruct (Z.eqb (returncode (os (info_command device))) 0) eqn:Hcode;
    [|discriminate H].
  apply Z.eqb_eq in Hcode. split; [exact Hcode|].
  destruct (plist_loads (stdout (os (info_command device)))) as [doc|];
    [|discriminate H].
  exists doc. split; [reflexivity|].
  destruct (Py.get doc "DeviceIdentifier" (VStr "")) as [x|] eqn:Hx;
    [|discriminate H].
  apply get_ok in Hx as [Hdict ->]. split; [exact Hdict|].
  cbn [rbind] in H. rewrite !(get_dict doc) in H by exact Hdict.
  cbn [rbind] in H. injection H as <-. reflexivity.
Qed.

(** X5. Every disk that [get_disk_info] returns has a non-empty label and a
    non-empty file system tag.  Its device path is "/dev/" followed by the
    identifier the response reports, whatever path was asked for, and it
    is the bare "/dev/" when the response reports none. *)
Theorem get_disk_info_invariants :
  forall (os : command -> completed) (plist_loads : string -> option pyval)
         (py_repr : pyval -> string) (device : string) (t : list command)
         (d : Disk),
    snd (get_disk_info os plist_loads py_repr device t) = Ok d ->
    Py.truthy (volume_name d) = true
    /\ Py.truthy (file_system d) = true
    /\ exists bindings : list (string * pyval),
        plist_loads (stdout (os (info_command device))) =
        Some (VDict bindings)
        /\ (forall s : string,
               Py.assoc "DeviceIdentifier" bindings = Some (VStr s) ->
               device_path d = ("/dev/" ++ s)%string)
        /\ (Py.assoc "DeviceIdentifier" bindings = None ->
            device_path d = "/dev/").
Proof.
  intros os plist_loads py_repr device t d H.
  apply get_disk_info_sound in H as [_ [doc [Hdoc [Hdict ->]]]].
  cbn [volume_name file_system device_path].
  split; [apply or_else_truthy; reflexivity|].
  split; [apply or_else_truthy; reflexivity|].
  destruct doc as [| | | | | | | |bindings]; try discriminate Hdict.
  exists bindings. split; [exact Hdoc|]. cbn [Response.field].
  split.
  - intros s Hs. rewrite Hs. reflexivity.
  - intros Hnone. rewrite Hnone. reflexivity.
Qed.

Lemma get_disk_info_invariants_witness :
  Py.truthy
    (volume_name
       (mkDisk "/dev/disk4" (VStr "Untitled") (VInt 32000000000)
               (VStr "MS-DOS") (VBool true) (VBool true))) = true.
Proof.
  apply (get_disk_info_invariants
           (Sample.host 0 "plist") (Sample.reads Sample.unnamed_info)
           Sample.repr "/dev/disk9" []
           (mkDisk "/dev/disk4" (VStr "Untitled") (VInt 32000000000)
                   (VStr "MS-DOS") (VBool true) (VBool true))
           eq_refl).
Defined.

(** ** cloud_init.py *)

(** X6. When the partition-table query exits with status zero and prints
    what [plistlib.loads] rejects, [get_boot_partition] raises the parse
    exception: it is not turned into [None].  A path that it returns begins
    with "/dev/", so it is never the empty string. *)
Theorem get_boot_partition_edges :
  forall (os : command -> completed) (plist_loads : string -> option pyval)
         (py_repr : pyval -> string) (device : string) (t : list command),
    (returncode (os (partition_command device)) = 0%Z ->
     plist_loads (stdout (os (partition_command device))) = None ->
     snd (get_boot_partition os plist_loads py_repr device t) =
     Raise (Lib InvalidPlist))
    /\ (forall path : string,
           snd (get_boot_partition os plist_loads py_repr device t) =
           Ok (Some path) ->
           PyStr.startswith "/dev/" path = true /\ path <> "").
Proof.
  intros os plist_loads py_repr device t. split.
  - intros Hcode Hdoc. rewrite get_boot_partition_run, Hcode, Hdoc.
    reflexivity.
  - intros path H.
    assert (Hrun := H). rewrite get_boot_partition_run in Hrun.
    cbn [snd] in Hrun.
    destruct (Z.eqb (returncode (os (partition_command device))) 0)
      eqn:Hcode; [|discriminate Hrun].
    apply Z.eqb_eq in Hcode.
    destruct (plist_loads (stdout (os (partition_command device))))
      as [doc|] eqn:Hdoc; [|discriminate Hrun].
    apply (get_boot_partition_sound os plist_loads py_repr device doc t
             (Some path) Hcode Hdoc) in H.
    destruct (find Response.is_fat (Response.table doc)) as [p|];
      [|discriminate H].
    cbn [option_map] in H. injection H as ->.
    unfold partition_path, PyStr.startswith.
    split; [apply prefix_append | discriminate].
Qed.

Lemma get_boot_partition_edges_witness :
  snd (get_boot_partition (Sample.host 0 "<plist") Sample.unreadable
                          Sample.repr "/dev/disk4" []) =
  Raise (Lib InvalidPlist)
  /\ PyStr.startswith "/dev/" "/dev/None" = true.
Proof.
  split.
  - apply (proj1 (get_boot_partition_edges
                    (Sample.host 0 "<plist") Sample.unreadable Sample.repr
                    "/dev/disk4" [])); reflexivity.
  - apply (proj2 (get_boot_partition_edges
                    (Sample.host 0 "plist")
                    (Sample.reads Sample.anonymous_fat) Sample.repr
                    "/dev/disk4" [])
             "/dev/None" eq_refl).
Defined.

(** X7. [load_cloud_config] returns text for no other document than one
    that parses to a mapping, and the text is then what [yaml.dump] writes
    for that mapping.  When [open] fails for another reason than a missing
    file, the exception of [open] leaves the function as it is: it is no
    [CloudInitError]. *)
Theorem load_cloud_config_accepts_mappings_only :
  forall (open_file : string -> opened)
         (yaml_safe_load : string -> string + yaml)
         (yaml_dump : yaml -> string) (config_path : string),
    (forall text : string,
        load_cloud_config open_file yaml_safe_load yaml_dump config_path =
        Ok text ->
        exists (contents : string) (bindings : list (yaml * yaml)),
          open_file config_path = Text contents
          /\ yaml_safe_load contents = inr (YDict bindings)
          /\ text = yaml_dump (YDict bindings))
    /\ (open_file config_path = OpenFailed ->
        load_cloud_config open_file yaml_safe_load yaml_dump config_path =
        Raise (Lib (OtherOSError config_path))).
Proof.
  intros open_file yaml_safe_load yaml_dump config_path.
  unfold load_cloud_config, read_config. split.
  - intros text H.
    destruct (open_file config_path) as [| |contents]; try discriminate H.
    destruct (yaml_safe_load contents) as [diagnostic|config] eqn:Hload;
      [discriminate H|].
    cbn [rbind] in H.
    destruct config; cbn [isinstance_dict negb] in H; try discriminate H.
    injection H as <-. eexists. eexists. repeat split. exact Hload.
  - intros Hopen. rewrite Hopen. reflexivity.
Qed.

Lemma load_cloud_config_accepts_mappings_only_witness :
  exists (contents : string) (bindings : list (yaml * yaml)),
    Sample.config_files "user-data.yaml" = Text contents
    /\ Sample.safe_load contents = inr (YDict bindings)
    /\ Sample.dump (YDict [(YStr "hostname", YStr "pi")]) =
       Sample.dump (YDict bindings).
Proof.
  apply (proj1 (load_cloud_config_accepts_mappings_only
                  Sample.config_files Sample.safe_load Sample.dump
                  "user-data.yaml")
           (Sample.dump (YDict [(YStr "hostname", YStr "pi")]))).
  reflexivity.
Defined.

(** ** disk_writer.py: [unmount_disk], [eject_disk] *)

(** X8. [unmount_disk] and [eject_disk] start exactly one command, with the
    device path as it was given (not its raw form).  They return normally
    when the command exits with status zero, and otherwise raise a
    [DiskWriterError] whose message ends with what the command printed on
    its error stream. *)
Theorem unmount_and_eject_outcomes :
  forall (shell : list command -> command -> completed)
         (shell_stderr : list command -> command -> string)
         (device : string) (t : list command),
    let unmount := ["diskutil"; "unmountDisk"; device] in
    let eject := ["diskutil"; "eject"; device] in
    unmount_disk shell shell_stderr device t =
    (t ++ [unmount],
     if Z.eqb (returncode (shell t unmount)) 0 then Ok tt
     else Raise (DiskWriterError
                   (Message ("Failed to unmount disk: "
                               ++ shell_stderr t unmount)%string None)))
    /\ eject_disk shell shell_stderr device t =
       (t ++ [eject],
        if Z.eqb (returncode (shell t eject)) 0 then Ok tt
        else Raise (DiskWriterError
                      (Message ("Failed to eject disk: "
                                  ++ shell_stderr t eject)%string None))).
Proof.
  intros shell shell_stderr device t unmount eject. split.
  - unfold unmount_disk, run_in, subprocess_run_check, unmount_command.
    fold unmount.
    destruct (Z.eqb (returncode (shell t unmount)) 0); reflexivity.
  - unfold eject_disk, run_in, subprocess_run_check, eject_command.
    fold eject.
    destruct (Z.eqb (returncode (shell t eject)) 0); reflexivity.
Qed.

(** ** cloud_init.py: [mount_partition] *)

Section Mount.

Variable shell : list command -> command -> completed.
Variable plist_loads : string -> option pyval.

(** One run of [mount_partition]: the mount command, the info query started
    after it, and the outcome read off the query alone. *)
Lemma mount_partition_run (partition : string) (t : list command) :
  let t1 := t ++ [mount_command partition] in
  let r := shell t1 (info_command partition) in
  mount_partition shell plist_loads partition t =
  (t1 ++ [info_command partition],
   if Z.eqb (returncode r) 0 then
     match plist_loads (stdout r) with
     | Some doc =>
         mount_point <-r Py.get doc "MountPoint" (VStr "") ;;
         if Py.truthy mount_point then PosixPath.of_value mount_point
         else Raise (CloudInitError
                       (Message "Could not determine mount point" None))
     | None => Raise (Lib InvalidPlist)
     end
   else Raise (CloudInitError
                 (Message "Could not determine mount point" None))).
Proof.
  intros t1 r.
  unfold mount_partition, attempt_mount, query_mount_point, try_except, bind,
    run_in, subprocess_run_check, ret, raise, lift, loads.
  fold t1.
  destruct (Z.eqb (returncode (shell t (mount_command partition))) 0);
    fold r;
    (destruct (Z.eqb (returncode r) 0); [|reflexivity]);
    (destruct (plist_loads (stdout r)) as [doc|]; [|reflexivity]);
    destruct doc; try reflexivity;
    cbn [Py.get rbind];
    match goal with
    | |- context [Py.truthy ?mp] =>
        destruct (Py.truthy mp); [|reflexivity]; destruct mp; reflexivity
    end.
Qed.

End Mount.

(** X9. [mount_partition] always starts two commands, the mount and then
    the info query, whatever the mount command does; and its outcome does
    not depend on the result of the mount command: two shells that answer
    the info query alike give the same outcome. *)
Theorem mount_partition_ignores_mount_result :
  forall (shell shell' : list command -> command -> completed)
         (plist_loads : string -> option pyval)
         (partition : string) (t : list command),
    fst (mount_partition shell plist_loads partition t) =
    t ++ [["diskutil"; "mount"; partition];
          ["diskutil"; "info"; "-plist"; partition]]
    /\ (shell' (t ++ [mount_command partition]) (info_command partition) =
        shell (t ++ [mount_command partition]) (info_command partition) ->
        snd (mount_partition shell' plist_loads partition t) =
        snd (mount_partition shell plist_loads partition t)).
Proof.
  intros shell shell' plist_loads partition t. split.
  - rewrite mount_partition_run. cbn [fst].
    rewrite <- app_assoc. reflexivity.
  - intros Hsame. rewrite !mount_partition_run. cbn [snd].
    rewrite Hsame. reflexivity.
Qed.

Lemma mount_partition_ignores_mount_result_witness :
  snd (mount_partition (fun _ _ => Completed 0 "plist")
         (Sample.reads Fixture.mounted_info) "/dev/disk4s1" []) =
  snd (mount_partition Fixture.shell
         (Sample.reads Fixture.mounted_info) "/dev/disk4s1" []).
Proof.
  apply (proj2 (mount_partition_ignores_mount_result
                  Fixture.shell (fun _ _ => Completed 0 "plist")
                  (Sample.reads Fixture.mounted_info) "/dev/disk4s1" [])).
  reflexivity.
Defined.

(** X10. With the answer of the info query that follows the mount attempt:
    [mount_partition] returns a path exactly when the query exits with
    status zero and reports a non-empty str as mount point, and the path is
    [Path] of that str.  It raises [CloudInitError] when the query exits
    with a non-zero status, and when the response reports an empty mount
    point or none.  Output that [plistlib.loads] rejects raises the parse
    exception, which is no [CloudInitError]. *)
Theorem mount_partition_outcomes :
  forall (shell : list command -> command -> completed)
         (plist_loads : string -> option pyval)
         (partition : string) (t : list command),
    let r := shell (t ++ [mount_command partition]) (info_command partition) in
    let undetermined :=
      Raise (CloudInitError (Message "Could not determine mount point" None))
    in
    (forall p : PosixPath.t,
        snd (mount_partition shell plist_loads partition t) = Ok p <->
        returncode r = 0%Z
        /\ exists (bindings : list (string * pyval)) (s : string),
            plist_loads (stdout r) = Some (VDict bindings)
            /\ Py.assoc "MountPoint" bindings = Some (VStr s)
            /\ s <> ""
            /\ p = PosixPath.of_string s)
    /\ (returncode r <> 0%Z ->
        snd (mount_partition shell plist_loads partition t) = undetermined)
    /\ (forall doc : pyval,
           returncode r = 0%Z ->
           plist_loads (stdout r) = Some doc ->
           Response.is_dict doc = true ->
           Py.truthy (Response.field doc "MountPoint" (VStr "")) = false ->
           snd (mount_partition shell plist_loads partition t) = undetermined)
    /\ (returncode r = 0%Z ->
        plist_loads (stdout r) = None ->
        snd (mount_partition shell plist_loads partition t) =
        Raise (Lib InvalidPlist)).
Proof.
  intros shell plist_loads partition t r undetermined.
  rewrite mount_partition_run. fold r. cbn [snd].
  split; [|split; [|split]].
  - intros p. split.
    + intros H.
      destruct (Z.eqb (returncode r) 0) eqn:Hcode; [|discriminate H].
      apply Z.eqb_eq in Hcode. split; [exact Hcode|].
      destruct (plist_loads (stdout r)) as [doc|]; [|discriminate H].
      destruct doc as [| | | | | | | |bindings]; try discriminate H.
      cbn [Py.get rbind] in H.
      destruct (Py.assoc "MountPoint" bindings) as [mp|] eqn:Hassoc.
      * destruct (Py.truthy mp) eqn:Hmp; [|discriminate H].
        destruct mp as [| | | |s| | | |]; try discriminate H.
        cbn [PosixPath.of_value] in H. injection H as <-.
        exists bindings, s.
        split; [reflexivity|]. split; [exact Hassoc|]. split; [|reflexivity].
        intros ->. discriminate Hmp.
      * discriminate H.
    + intros [Hcode [bindings [s [Hdoc [Hmp [Hs ->]]]]]].
      rewrite Hcode, Hdoc. cbn [Z.eqb Py.get rbind]. rewrite Hmp.
      cbn [Py.truthy].
      destruct (String.eqb s "") eqn:E;
        [apply String.eqb_eq in E; contradiction|].
      reflexivity.
  - intros Hcode. apply Z.eqb_neq in Hcode. rewrite Hcode. reflexivity.
  - intros doc Hcode Hdoc Hdict Hmp. rewrite Hcode, Hdoc. cbn [Z.eqb].
    rewrite (get_dict _ _ _ Hdict). cbn [rbind]. rewrite Hmp. reflexivity.
  - intros Hcode Hdoc. rewrite Hcode, Hdoc. reflexivity.
Qed.

Lemma mount_partition_outcomes_witness :
  snd (mount_partition Fixture.shell (Sample.reads Fixture.mounted_info)
                       "/dev/disk4s1" []) =
  Ok (PosixPath.of_string "/Volumes/bootfs")
  /\ snd (mount_partition (fun _ _ => Completed 1 "")
            (Sample.reads Fixture.mounted_info) "/dev/disk4s1" []) =
     Raise (CloudInitError (Message "Could not determine mount point" None))
  /\ snd (mount_partition Fixture.shell (Sample.reads Sample.unnamed_info)
                          "/dev/disk4" []) =
     Raise (CloudInitError (Message "Could not determine mount point" None))
  /\ snd (mount_partition Fixture.shell Sample.unreadable
                          "/dev/disk4s1" []) =
     Raise (Lib InvalidPlist).
Proof.
  split; [|split; [|split]].
  - apply (proj1 (mount_partition_outcomes
                    Fixture.shell (Sample.reads Fixture.mounted_info)
                    "/dev/disk4s1" [])).
    split; [reflexivity|].
    exists [("DeviceIdentifier", VStr "disk4s1");
            ("MountPoint", VStr "/Volumes/bootfs")].
    exists "/Volumes/bootfs". repeat split. discriminate.
  - apply (proj1 (proj2 (mount_partition_outcomes
                    (fun _ _ => Completed 1 "")
                    (Sample.reads Fixture.mounted_info) "/dev/disk4s1" []))).
    simpl. lia.
  - apply (proj1 (proj2 (proj2 (mount_partition_outcomes
                    Fixture.shell (Sample.reads Sample.unnamed_info)
                    "/dev/disk4" [])))
             Sample.unnamed_info); reflexivity.
  - apply (proj2 (proj2 (proj2 (mount_partition_outcomes
                    Fixture.shell Sample.unreadable "/dev/disk4s1" []))));
      reflexivity.
Defined.

(** ** cloud_init.py: [write_cloud_init_files] *)

Lemma user_data_is_not_meta_data (mount_path : PosixPath.t) :
  PosixPath.joinpath mount_path "user-data" <>
  PosixPath.joinpath mount_path "meta-data".
Proof.
  unfold PosixPath.joinpath. cbn. intros H. injection H as H.
  apply app_inv_head in H. discriminate H.
Qed.

(** X11. When the mount path does not exist, [write_cloud_init_files]
    raises [CloudInitError] and writes nothing: the file system is left as
    it was.  When the write of "user-data" raises, that exception is raised
    and "meta-data" is not written.  With an empty [meta_data], the only
    write is that of "user-data". *)
Theorem write_cloud_init_files_order :
  forall (FS : Type) (fs_exists : FS -> PosixPath.t -> bool)
         (fs_write_text : FS -> PosixPath.t -> string -> FS * option lib_exn)
         (mount_path : PosixPath.t) (user_data meta_data : string) (fs : FS),
    let user_data_path := PosixPath.joinpath mount_path "user-data" in
    (fs_exists fs mount_path = false ->
     write_cloud_init_files fs_exists fs_write_text
                            mount_path user_data meta_data fs =
     (fs, Raise (CloudInitError
                   (Message ("Mount point does not exist: "
                               ++ PosixPath.to_string mount_path)%string
                            None))))
    /\ (forall (fs1 : FS) (e : lib_exn),
           fs_exists fs mount_path = true ->
           fs_write_text fs user_data_path user_data = (fs1, Some e) ->
           write_cloud_init_files fs_exists fs_write_text
                                  mount_path user_data meta_data fs =
           (fs1, Raise (Lib e)))
    /\ (forall fs1 : FS,
           fs_exists fs mount_path = true ->
           fs_write_text fs user_data_path user_data = (fs1, None) ->
           meta_data = "" ->
           write_cloud_init_files fs_exists fs_write_text
                                  mount_path user_data meta_data fs =
           (fs1, Ok tt)).
Proof.
  intros FS fs_exists fs_write_text mount_path user_data meta_data fs
         user_data_path.
  unfold write_cloud_init_files, write_text. fold user_data_path.
  split; [|split].
  - intros Hmissing. rewrite Hmissing. reflexivity.
  - intros fs1 e Hex Hwrite. rewrite Hex, Hwrite. reflexivity.
  - intros fs1 Hex Hwrite ->. rewrite Hex, Hwrite. reflexivity.
Qed.

Lemma write_cloud_init_files_order_witness :
  write_cloud_init_files Fixture.exists_ Fixture.write
    (PosixPath.of_string "/Volumes/nothing") "hostname: pi" "" Fixture.card =
  (Fixture.card,
   Raise (CloudInitError
            (Message "Mount point does not exist: /Volumes/nothing" None)))
  /\ write_cloud_init_files Fixture.exists_ Fixture.write
       (PosixPath.of_string "/Volumes/bootfs") "hostname: pi" "id: 1"
       Fixture.plain_file =
     (Fixture.plain_file,
      Raise (Lib (OtherOSError "/Volumes/bootfs/user-data")))
  /\ write_cloud_init_files Fixture.exists_ Fixture.write
       (PosixPath.of_string "/Volumes/bootfs") "hostname: pi" ""
       Fixture.card =
     (Fixture.mkfs (Fixture.dirs Fixture.card)
        [(PosixPath.of_string "/Volumes/bootfs/user-data", "hostname: pi")],
      Ok tt).
Proof.
  split; [|split].
  - apply (proj1 (write_cloud_init_files_order
                    Fixture.fs Fixture.exists_ Fixture.write
                    (PosixPath.of_string "/Volumes/nothing")
                    "hostname: pi" "" Fixture.card)).
    reflexivity.
  - apply (proj1 (proj2 (write_cloud_init_files_order
                    Fixture.fs Fixture.exists_ Fixture.write
                    (PosixPath.of_string "/Volumes/bootfs")
                    "hostname: pi" "id: 1" Fixture.plain_file)));
      reflexivity.
  - apply (proj2 (proj2 (write_cloud_init_files_order
                    Fixture.fs Fixture.exists_ Fixture.write
                    (PosixPath.of_string "/Volumes/bootfs")
                    "hostname: pi" "" Fixture.card)));
      reflexivity.
Defined.

Lemma same_parts_eq (l1 l2 : list string) :
  Fixture.same_parts l1 l2 = true <-> l1 = l2.
Proof.
  revert l2. induction l1 as [|x l1 IH]; intros [|y l2]; cbn;
    try (split; [discriminate | discriminate]); try tauto.
  rewrite andb_true_iff, String.eqb_eq, IH. split.
  - intros [-> ->]. reflexivity.
  - intros H. injection H as -> ->. split; reflexivity.
Qed.

Lemma same_path_eq (p q : PosixPath.t) :
  Fixture.same_path p q = true <-> p = q.
Proof.
  destruct p as [r1 l1], q as [r2 l2]. unfold Fixture.same_path. cbn.
  rewrite andb_true_iff, String.eqb_eq, same_parts_eq. split.
  - intros [-> ->]. reflexivity.
  - intros H. injection H as -> ->. split; reflexivity.
Qed.

Lemma fixture_lookup_other (q p : PosixPath.t) (text : string)
      (l : list (PosixPath.t * string)) :
  q <> p -> Fixture.lookup q ((p, text) :: l) = Fixture.lookup q l.
Proof.
  intros Hne. cbn. destruct (Fixture.same_path q p) eqn:E; [|reflexivity].
  apply same_path_eq in E. contradiction.
Qed.

Lemma fixture_lookup_same (p : PosixPath.t) (text : string)
      (l : list (PosixPath.t * string)) :
  Fixture.lookup p ((p, text) :: l) = Some text.
Proof.
  cbn. destruct (Fixture.same_path p p) eqn:E; [reflexivity|].
  assert (H : Fixture.same_path p p = true) by (apply same_path_eq; reflexivity).
  congruence.
Qed.

(** The file system of the instances keeps what is written and leaves the
    other paths alone. *)
Lemma fixture_write_stores (f f' : Fixture.fs) (p : PosixPath.t)
      (text : string) :
  Fixture.write f p text = (f', None) -> Fixture.read f' p = Some text.
Proof.
  unfold Fixture.write, Fixture.read.
  destruct (_ && _); intros H; [|discriminate H].
  injection H as <-. apply fixture_lookup_same.
Qed.

Lemma fixture_write_frame (f f' : Fixture.fs) (p q : PosixPath.t)
      (text : string) (o : option lib_exn) :
  Fixture.write f p text = (f', o) -> q <> p ->
  Fixture.read f' q = Fixture.read f q.
Proof.
  unfold Fixture.write, Fixture.read.
  destruct (_ && _); intros H Hne; injection H as <- _; [|reflexivity].
  apply fixture_lookup_other, Hne.
Qed.

Lemma fixture_write_any_stores (f f' : Fixture.fs) (p : PosixPath.t)
      (text : string) :
  Fixture.write_any f p text = (f', None) -> Fixture.read f' p = Some text.
Proof.
  unfold Fixture.write_any, Fixture.read.
  destruct (existsb _ _); intros H; [|discriminate H].
  injection H as <-. apply fixture_lookup_same.
Qed.

Lemma fixture_write_any_frame (f f' : Fixture.fs) (p q : PosixPath.t)
      (text : string) (o : option lib_exn) :
  Fixture.write_any f p text = (f', o) -> q <> p ->
  Fixture.read f' q = Fixture.read f q.
Proof.
  unfold Fixture.write_any, Fixture.read.
  destruct (existsb _ _); intros H Hne; injection H as <- _; [|reflexivity].
  apply fixture_lookup_other, Hne.
Qed.

(** X12. On a file system that keeps what [write_text] has written at a
    path and leaves every other path as it was: when
    [write_cloud_init_files] returns, "user-data" under the mount path
    holds [user_data]; "meta-data" holds [meta_data] when that is not
    empty, and is as it was before when it is empty; and every other path
    is as it was before. *)
Theorem write_cloud_init_files_contents :
  forall (FS : Type) (fs_exists : FS -> PosixPath.t -> bool)
         (fs_write_text : FS -> PosixPath.t -> string -> FS * option lib_exn)
         (fs_read : FS -> PosixPath.t -> option string),
    (forall f p s f',
        fs_write_text f p s = (f', None) -> fs_read f' p = Some s) ->
    (forall f p s f' o q,
        fs_write_text f p s = (f', o) -> q <> p ->
        fs_read f' q = fs_read f q) ->
    forall (mount_path : PosixPath.t) (user_data meta_data : string)
           (fs fs' : FS),
      write_cloud_init_files fs_exists fs_write_text
                             mount_path user_data meta_data fs =
      (fs', Ok tt) ->
      let user_data_path := PosixPath.joinpath mount_path "user-data" in
      let meta_data_path := PosixPath.joinpath mount_path "meta-data" in
      fs_read fs' user_data_path = Some user_data
      /\ (meta_data <> "" -> fs_read fs' meta_data_path = Some meta_data)
      /\ (meta_data = "" ->
          fs_read fs' meta_data_path = fs_read fs meta_data_path)
      /\ (forall q : PosixPath.t,
             q <> user_data_path -> q <> meta_data_path ->
             fs_read fs' q = fs_read fs q).
Proof.
  intros FS fs_exists fs_write_text fs_read Hstore Hframe
         mount_path user_data meta_data fs fs' H user_data_path
         meta_data_path.
  unfold write_cloud_init_files, write_text in H.
  fold user_data_path meta_data_path in H.
  destruct (fs_exists fs mount_path); cbn [negb] in H; [|discriminate H].
  destruct (fs_write_text fs user_data_path user_data) as [fs1 [e|]] eqn:H1;
    [discriminate H|].
  assert (Hne : user_data_path <> meta_data_path)
    by apply user_data_is_not_meta_data.
  destruct (String.eqb meta_data "") eqn:Hmeta; cbn [negb] in H.
  - apply String.eqb_eq in Hmeta. injection H as <-.
    split; [exact (Hstore _ _ _ _ H1)|].
    split; [intros Hcontra; contradiction|].
    split.
    + intros _. apply (Hframe _ _ _ _ _ meta_data_path H1).
      intros E. apply Hne. symmetry. exact E.
    + intros q Hq _. exact (Hframe _ _ _ _ _ q H1 Hq).
  - apply String.eqb_neq in Hmeta.
    destruct (fs_write_text fs1 meta_data_path meta_data) as [fs2 [e|]] eqn:H2;
      [discriminate H|].
    injection H as <-.
    split.
    { rewrite (Hframe _ _ _ _ _ user_data_path H2 Hne).
      exact (Hstore _ _ _ _ H1). }
    split; [intros _; exact (Hstore _ _ _ _ H2)|].
    split; [intros Hcontra; contradiction|].
    intros q Hq1 Hq2.
    rewrite (Hframe _ _ _ _ _ q H2 Hq2). exact (Hframe _ _ _ _ _ q H1 Hq1).
Qed.

Lemma write_cloud_init_files_contents_witness :
  Fixture.read
    (fst (write_cloud_init_files Fixture.exists_ Fixture.write_any
            (PosixPath.of_string "/Volumes/bootfs") "hostname: pi" "id: 1"
            Fixture.card))
    (PosixPath.of_string "/Volumes/bootfs/user-data") = Some "hostname: pi".
Proof.
  apply (write_cloud_init_files_contents
           Fixture.fs Fixture.exists_ Fixture.write_any Fixture.read
           (fun f p s f' => fixture_write_any_stores f f' p s)
           (fun f p s f' o q => fixture_write_any_frame f f' p q s o)
           (PosixPath.of_string "/Volumes/bootfs") "hostname: pi" "id: 1"
           Fixture.card _ eq_refl).
Defined.

(** X13. The two writes are not one step.  On such a file system, when the
    write of "user-data" succeeds and the write of a non-empty [meta_data]
    raises, [write_cloud_init_files] raises that exception, which is the
    library's and no [CloudInitError], and "user-data" holds [user_data]
    all the same. *)
Theorem write_cloud_init_files_not_atomic :
  forall (FS : Type) (fs_exists : FS -> PosixPath.t -> bool)
         (fs_write_text : FS -> PosixPath.t -> string -> FS * option lib_exn)
         (fs_read : FS -> PosixPath.t -> option string),
    (forall f p s f',
        fs_write_text f p s = (f', None) -> fs_read f' p = Some s) ->
    (forall f p s f' o q,
        fs_write_text f p s = (f', o) -> q <> p ->
        fs_read f' q = fs_read f q) ->
    forall (mount_path : PosixPath.t) (user_data meta_data : string)
           (fs fs1 fs2 : FS) (e : lib_exn),
      fs_exists fs mount_path = true ->
      fs_write_text fs (PosixPath.joinpath mount_path "user-data") user_data =
      (fs1, None) ->
      meta_data <> "" ->
      fs_write_text fs1 (PosixPath.joinpath mount_path "meta-data") meta_data =
      (fs2, Some e) ->
      write_cloud_init_files fs_exists fs_write_text
                             mount_path user_data meta_data fs =
      (fs2, Raise (Lib e))
      /\ fs_read fs2 (PosixPath.joinpath mount_path "user-data") =
         Some user_data.
Proof.
  intros FS fs_exists fs_write_text fs_read Hstore Hframe
         mount_path user_data meta_data fs fs1 fs2 e Hex H1 Hmeta H2.
  split.
  - unfold write_cloud_init_files, write_text. rewrite Hex, H1.
    cbn [negb]. apply String.eqb_neq in Hmeta. rewrite Hmeta. cbn [negb].
    rewrite H2. reflexivity.
  - rewrite (Hframe _ _ _ _ _ _ H2 (user_data_is_not_meta_data mount_path)).
    exact (Hstore _ _ _ _ H1).
Qed.

Lemma write_cloud_init_files_not_atomic_witness :
  write_cloud_init_files Fixture.exists_ Fixture.write
    (PosixPath.of_string "/Volumes/bootfs") "hostname: pi" "id: 1"
    Fixture.card =
  (Fixture.mkfs (Fixture.dirs Fixture.card)
     [(PosixPath.of_string "/Volumes/bootfs/user-data", "hostname: pi")],
   Raise (Lib (OtherOSError "/Volumes/bootfs/meta-data")))
  /\ Fixture.read
       (Fixture.mkfs (Fixture.dirs Fixture.card)
          [(PosixPath.of_string "/Volumes/bootfs/user-data", "hostname: pi")])
       (PosixPath.of_string "/Volumes/bootfs/user-data") =
     Some "hostname: pi".
Proof.
  apply (write_cloud_init_files_not_atomic
           Fixture.fs Fixture.exists_ Fixture.write Fixture.read
           (fun f p s f' => fixture_write_stores f f' p s)
           (fun f p s f' o q => fixture_write_frame f f' p q s o)
           (PosixPath.of_string "/Volumes/bootfs") "hostname: pi" "id: 1"
           Fixture.card
           (Fixture.mkfs (Fixture.dirs Fixture.card)
              [(PosixPath.of_string "/Volumes/bootfs/user-data",
                "hostname: pi")])
           (Fixture.mkfs (Fixture.dirs Fixture.card)
              [(PosixPath.of_string "/Volumes/bootfs/user-data",
                "hostname: pi")])
           (OtherOSError "/Volumes/bootfs/meta-data"));
    try reflexivity.
  discriminate.
Defined.

(** ** models.py: [Disk.display_name] *)

(** X14. [display_name] is the bare device path for a disk whose label is
    empty or is "Untitled", and the label followed by the device path in
    parentheses for any other str label.  So the "Untitled" that
    [get_disk_info] fills in is never displayed: for a response with an
    empty volume name, or none, the display name of the disk returned is
    its device path. *)
Theorem display_name_hides_untitled :
  forall py_repr : pyval -> string,
    (forall d : Disk,
        Py.truthy (volume_name d) = false \/ volume_name d = VStr "Untitled" ->
        display_name py_repr d = device_path d)
    /\ (forall (d : Disk) (l : string),
           volume_name d = VStr l -> l <> "" -> l <> "Untitled" ->
           display_name py_repr d =
           (l ++ " (" ++ device_path d ++ ")")%string)
    /\ (forall (os : command -> completed)
               (plist_loads : string -> option pyval)
               (device : string) (t : list command) (d : Disk) (doc : pyval),
           snd (get_disk_info os plist_loads py_repr device t) = Ok d ->
           plist_loads (stdout (os (info_command device))) = Some doc ->
           Py.truthy (Response.field doc "VolumeName" (VStr "")) = false ->
           display_name py_repr d = device_path d).
Proof.
  intros py_repr. split; [|split].
  - intros d [Hempty|Huntitled]; unfold display_name.
    + rewrite Hempty. reflexivity.
    + rewrite Huntitled. reflexivity.
  - intros d l Hl Hne Hun. unfold display_name. rewrite Hl.
    cbn [Py.truthy ne_str format].
    apply String.eqb_neq in Hne, Hun. rewrite Hne, Hun. reflexivity.
  - intros os plist_loads device t d doc Hrun Hdoc Hname.
    apply get_disk_info_sound in Hrun as [_ [doc' [Hdoc' [_ ->]]]].
    rewrite Hdoc in Hdoc'. injection Hdoc' as <-.
    unfold display_name, Py.or_else. cbn [volume_name device_path].
    rewrite Hname. reflexivity.
Qed.

Lemma display_name_hides_untitled_witness :
  display_name Sample.repr
    (mkDisk "/dev/disk4" (VStr "Untitled") (VInt 32000000000)
            (VStr "MS-DOS") (VBool true) (VBool true)) = "/dev/disk4"
  /\ display_name Sample.repr (disk_for Sample.repr Sample.sd_card) =
     "rootfs (/dev/disk4)".
Proof.
  split.
  - apply (proj2 (proj2 (display_name_hides_untitled Sample.repr))
             (Sample.host 0 "plist") (Sample.reads Sample.unnamed_info)
             "/dev/disk4" []
             (mkDisk "/dev/disk4" (VStr "Untitled") (VInt 32000000000)
                     (VStr "MS-DOS") (VBool true) (VBool true))
             Sample.unnamed_info); reflexivity.
  - apply (proj1 (proj2 (display_name_hides_untitled Sample.repr))
             (disk_for Sample.repr Sample.sd_card) "rootfs");
      [reflexivity | discriminate | discriminate].
Defined.

(** ** disk_detector.py: the two shapes of an entry *)

(** X15. An entry is read alike in its two shapes: with the disk's own
    fields in a "Disk" dict beside "Partitions", as the tests build it, and
    with the same fields at the top level of the entry, as long as there is
    at least one field and none is named "Disk" or "Partitions". *)
Theorem nested_and_flat_entries_agree :
  forall (py_repr : pyval -> string)
         (fields : list (string * pyval)) (partitions : pyval),
    fields <> [] ->
    Py.assoc "Disk" fields = None ->
    Py.assoc "Partitions" fields = None ->
    disk_of_entry py_repr
      (VDict [("Disk", VDict fields); ("Partitions", partitions)]) =
    disk_of_entry py_repr (VDict (fields ++ [("Partitions", partitions)])).
Proof.
  intros py_repr fields partitions Hne Hdisk Hparts.
  assert (Hflat : forall k,
             String.eqb k "Partitions" = false ->
             Py.assoc k (fields ++ [("Partitions", partitions)]) =
             Py.assoc k fields).
  { intros k Hk. clear Hne Hdisk Hparts.
    induction fields as [|[k' v] rest IH]; cbn.
    - rewrite Hk. reflexivity.
    - destruct (String.eqb k k'); [reflexivity | exact IH]. }
  assert (Hflat_parts :
            Py.assoc "Partitions" (fields ++ [("Partitions", partitions)]) =
            Some partitions).
  { clear Hne Hdisk Hflat.
    induction fields as [|[k' v] rest IH]; [reflexivity|].
    cbn [Py.assoc app] in Hparts |- *.
    destruct (String.eqb "Partitions" k'); [discriminate Hparts|].
    apply IH, Hparts. }
  unfold disk_of_entry. cbn [Py.get rbind].
  rewrite (Hflat "Disk" eq_refl), Hdisk.
  change (Py.assoc "Disk" [("Disk", VDict fields); ("Partitions", partitions)])
    with (Some (VDict fields)).
  assert (Htruthy : Py.truthy (VDict fields) = true)
    by (destruct fields; [contradiction | reflexivity]).
  cbn [rbind]. rewrite Htruthy. cbn [Py.truthy negb Py.get rbind].
  rewrite (Hflat "DeviceIdentifier" eq_refl), (Hflat "Content" eq_refl),
    (Hflat "Size" eq_refl), (Hflat "Removable" eq_refl),
    (Hflat "Ejectable" eq_refl), Hflat_parts.
  reflexivity.
Qed.

Lemma nested_and_flat_entries_agree_witness :
  disk_of_entry Sample.repr Sample.fixed_disk =
  disk_of_entry Sample.repr
    (VDict [("DeviceIdentifier", VStr "disk0");
            ("Size", VInt 500000000000);
            ("Content", VStr "APFS");
            ("Removable", VBool false);
            ("Ejectable", VBool false);
            ("Partitions", VList [])]).
Proof.
  apply (nested_and_flat_entries_agree Sample.repr
           [("DeviceIdentifier", VStr "disk0");
            ("Size", VInt 500000000000);
            ("Content", VStr "APFS");
            ("Removable", VBool false);
            ("Ejectable", VBool false)]
           (VList []));
    [discriminate | reflexivity | reflexivity].
Defined.
